(** * The GCS-triggered CSV loader [gcs_trigger_process] of [main.py]

    The handler is embedded as a program in a small monad that threads the
    state of the outside world (object storage and the warehouse), collects
    the chronological trace of [print] calls and collaborator calls, and
    either returns a value or raises a Python exception. *)

From stdpp Require Import gmap strings list fin_maps pretty.

(** ** Python values *)

(** The values an event payload carries and a JSON body holds.  [VOther]
    stands for any value that is neither [None], a [str], an [int] nor a
    [bool] (a float, a list, a nested dict); it carries its truth value and
    the text [str()] gives for it, which is all the handler can observe. *)
Inductive pyval :=
  | VNone
  | VStr (s : string)
  | VInt (z : Z)
  | VBool (b : bool)
  | VOther (truthy : bool) (text : string).

Abbreviation dict := (gmap string pyval).

(** Python truthiness, as used by [not x] and [x or y]. *)
Definition truthy (v : pyval) : bool :=
  match v with
  | VNone => false
  | VStr s => negb (String.eqb s "")
  | VInt z => negb (Z.eqb z 0)
  | VBool b => b
  | VOther t _ => t
  end.

(** [str(v)], the rendering an f-string uses. *)
Definition py_str (v : pyval) : string :=
  match v with
  | VNone => "None"
  | VStr s => s
  | VInt z => pretty z
  | VBool b => if b then "True" else "False"
  | VOther _ t => t
  end.

(** [d.get(k)]: the value at [k], [None] when the key is absent. *)
Definition dict_get (d : dict) (k : string) : pyval := default VNone (d !! k).

(** [o or {}] for an optional dict: [None] and the empty dict are falsy. *)
Definition or_empty (o : option dict) : dict :=
  match o with
  | None => ∅
  | Some d => if bool_decide (d = ∅) then ∅ else d
  end.

(** Truthiness of [os.environ.get(...)]: [None] and [""] are falsy. *)
Definition truthy_env (o : option string) : bool :=
  match o with
  | None => false
  | Some s => negb (String.eqb s "")
  end.

(** An environment variable inside an f-string. *)
Definition fmt_env (o : option string) : string :=
  match o with
  | None => "None"
  | Some s => s
  end.

(** ** String methods

    A [str] is modelled by its UTF-8 bytes.  The handler only compares
    against the ASCII literals ["raw_data/"] and [".csv"], so [lower] needs
    to act on the ASCII letters only. *)

Fixpoint startswith (s pre : string) {struct pre} : bool :=
  match pre, s with
  | EmptyString, _ => true
  | String a pre', String b s' => Ascii.eqb a b && startswith s' pre'
  | String _ _, EmptyString => false
  end.

(** [s.endswith(suf)]: [suf] is one of the tails of [s]. *)
Fixpoint endswith (s suf : string) : bool :=
  String.eqb s suf ||
  match s with
  | EmptyString => false
  | String _ s' => endswith s' suf
  end.

Definition ascii_lower (c : Ascii.ascii) : Ascii.ascii :=
  let n := Ascii.N_of_ascii c in
  if (65 <=? n)%N && (n <=? 90)%N then Ascii.ascii_of_N (n + 32) else c.

Fixpoint lower (s : string) : string :=
  match s with
  | EmptyString => EmptyString
  | String c s' => String (ascii_lower c) (lower s')
  end.

(** ** Exceptions *)

(** The exception classes the handler can tell apart: [NotFound] of
    [google.api_core.exceptions], the [AttributeError] of a method call on a
    value without that method, any other subclass of [Exception], and the
    exceptions outside [Exception] ([KeyboardInterrupt], [SystemExit]). *)
Inductive exn :=
  | NotFound (msg : string)
  | AttributeError (attr : string)
  | OtherException (cls msg : string)
  | BaseOnly (cls : string).

(** [except NotFound] *)
Definition is_NotFound (e : exn) : bool :=
  match e with NotFound _ => true | _ => false end.

(** [except Exception] *)
Definition is_Exception (e : exn) : bool :=
  match e with BaseOnly _ => false | _ => true end.

(** ** Collaborator data *)

(** The parsed CSV: the header row gives [columns], every further row is a
    data row; [len(df)] counts the data rows. *)
Record DataFrame := { columns : list string; rows : list (list string) }.

Definition len (df : DataFrame) : nat := length (rows df).

Inductive SourceFormat := CSV | PARQUET | NEWLINE_DELIMITED_JSON | AVRO.

Inductive WriteDisposition := WRITE_APPEND | WRITE_TRUNCATE | WRITE_EMPTY.

Record LoadJobConfig := {
  autodetect : bool;
  source_format : SourceFormat;
  skip_leading_rows : nat;
  write_disposition : WriteDisposition
}.

(** Table metadata as [get_table] returns it. *)
Record Table := { num_rows : nat }.

(** A load job is an object owned by the client library; the handler holds
    a reference and reads [job_id] and [state] through it. *)
Record LoadJob := { job_ref : nat }.

(** The outside world: object storage through [pd.read_csv] and the
    warehouse through the BigQuery client.  Every call may change the world
    and either returns or raises. *)
Class Collaborators (W : Type) := {
  read_csv : string → W → (exn + DataFrame) * W;
  get_table : string → W → (exn + Table) * W;
  load_table_from_dataframe :
    DataFrame → string → LoadJobConfig → W → (exn + LoadJob) * W;
  result : LoadJob → W → (exn + unit) * W;
  job_id : LoadJob → W → string;
  state : LoadJob → W → string
}.

(** ** Trace *)

(** What [print] is given.  Arguments are recorded as values; the two that
    the source renders first ([list(data.keys())] and [str(data)[:2000]])
    are recorded by what they are computed from. *)
Inductive printable :=
  | PStr (s : string)
  | PVal (v : pyval)
  | POpt (o : option string)
  | PNat (n : nat)
  | PDict (d : dict)
  | PKeys (d : dict)
  | PText (n : nat) (d : dict)
  | PCols (l : list string)
  | PExn (e : exn)
  | PTraceback (e : exn).

Inductive call :=
  | ReadCsv (uri : string)
  | GetTable (table_ref : string)
  | LoadTableFromDataframe (df : DataFrame) (table_ref : string)
      (job_config : LoadJobConfig)
  | Result (job : LoadJob).

(** One entry per [print] and per collaborator call, the latter with the
    exception it raised, if any. *)
Inductive event :=
  | Print (args : list printable)
  | Call (c : call) (err : option exn).

(** The collaborator calls of a trace, in order. *)
Fixpoint calls (tr : list event) : list (call * option exn) :=
  match tr with
  | [] => []
  | Print _ :: tr' => calls tr'
  | Call c r :: tr' => (c, r) :: calls tr'
  end.

(** ** The handler monad *)

Inductive outcome (A : Type) :=
  | Ret (a : A)
  | Raise (e : exn).
Arguments Ret {A} a.
Arguments Raise {A} e.

Definition M (W A : Type) : Type := W → outcome A * W * list event.

Definition ret {W A} (a : A) : M W A := λ w, (Ret a, w, []).

Definition raise {W A} (e : exn) : M W A := λ w, (Raise e, w, []).

Definition bind {W A B} (m : M W A) (f : A → M W B) : M W B :=
  λ w,
    match m w with
    | (Ret a, w1, t1) =>
        match f a w1 with
        | (r, w2, t2) => (r, w2, t1 ++ t2)
        end
    | (Raise e, w1, t1) => (Raise e, w1, t1)
    end.

(** [try: body  except ...: handler(e)]; the handler decides whether the
    exception is one it takes and re-raises it otherwise. *)
Definition try_except {W A} (body : M W A) (handler : exn → M W A) : M W A :=
  λ w,
    match body w with
    | (Ret a, w1, t1) => (Ret a, w1, t1)
    | (Raise e, w1, t1) =>
        match handler e w1 with
        | (r, w2, t2) => (r, w2, t1 ++ t2)
        end
    end.

Definition print {W} (args : list printable) : M W unit :=
  λ w, (Ret tt, w, [Print args]).

(** A collaborator call: run it on the world, record it. *)
Definition invoke {W A} (c : call) (f : W → (exn + A) * W) : M W A :=
  λ w,
    match f w with
    | (inr a, w1) => (Ret a, w1, [Call c None])
    | (inl e, w1) => (Raise e, w1, [Call c (Some e)])
    end.

(** An attribute read on an object the world owns. *)
Definition read_attr {W A} (f : W → A) : M W A := λ w, (Ret (f w), w, []).

(** A [str] method called on an arbitrary value. *)
Definition str_method {W A} (attr : string) (v : pyval) (f : string → A)
  : M W A :=
  match v with
  | VStr s => ret (f s)
  | _ => raise (AttributeError attr)
  end.

Declare Scope handler_scope.
Delimit Scope handler_scope with handler.
Notation "x <- m ;; k" := (bind m (λ x, k))
  (at level 100, m at next level, k at level 200, right associativity)
  : handler_scope.
Notation "m ;; k" := (bind m (λ _, k))
  (at level 100, k at level 200, right associativity) : handler_scope.

(** ** The response *)

Inductive body :=
  | Text (s : string)
  | Json (d : dict).

(** [jsonify({...})] *)
Definition jsonify (d : dict) : body := Json d.

Definition response : Type := body * Z.

(** ** The event *)

(** A CloudEvent as the handler reads it: the optional [type] and [subject]
    attributes ([getattr(..., None)]) and the [data] payload, which for a
    storage notification is a dict of JSON values, or absent. *)
Record CloudEvent := {
  ce_type : option string;
  ce_subject : option string;
  ce_data : option dict
}.

(** ** The handler *)

Section Handler.
Context {W : Type} `{!Collaborators W}.

(** The module-level configuration, [os.environ.get(...)] at import. *)
Variables BQ_PROJECT_ID BQ_DATASET_ID BQ_TABLE_ID : option string.

Local Open Scope handler_scope.

Definition gcs_trigger_process (cloud_event : CloudEvent) : M W response :=
  try_except
    (print [PStr "=== EVENT RECEIVED ==="];;
     let data := or_empty (ce_data cloud_event) in
     print [PStr "CloudEvent type:"; POpt (ce_type cloud_event)];;
     print [PStr "CloudEvent subject:"; POpt (ce_subject cloud_event)];;
     print [PStr "Event data keys:"; PKeys data];;
     print [PStr "Event data (first 2000 chars):"; PText 2000 data];;
     let bucket := dict_get data "bucket" in
     let name := dict_get data "name" in
     (* Basic validation *)
     if negb (truthy bucket) || negb (truthy name) then
       print [PStr "ERROR: Missing bucket or name in event payload:";
              PDict data];;
       ret (Text "Bad event payload: missing bucket or name", 400%Z)
     else
     (* Filter checks *)
     in_raw_data <- str_method "startswith" name
                      (λ s, startswith s "raw_data/");;
     if negb in_raw_data then
       print [PStr "SKIP: not in raw_data/ ->"; PVal name];;
       ret (Text "", 204%Z)
     else
     lowered <- str_method "lower" name lower;;
     if negb (endswith lowered ".csv") then
       print [PStr "SKIP: not a .csv ->"; PVal name];;
       ret (Text "", 204%Z)
     else
     (* Env var checks *)
     print [PStr "=== ENV VARS ==="];;
     print [PStr "BQ_PROJECT_ID:"; POpt BQ_PROJECT_ID];;
     print [PStr "BQ_DATASET_ID:"; POpt BQ_DATASET_ID];;
     print [PStr "BQ_TABLE_ID:"; POpt BQ_TABLE_ID];;
     if negb (truthy_env BQ_PROJECT_ID && truthy_env BQ_DATASET_ID
              && truthy_env BQ_TABLE_ID) then
       print [PStr "ERROR: Missing one or more BigQuery env vars."];;
       ret (Text "Missing env vars: BQ_PROJECT_ID, BQ_DATASET_ID, BQ_TABLE_ID",
            500%Z)
     else
     let table_ref :=
       fmt_env BQ_PROJECT_ID +:+ "." +:+ fmt_env BQ_DATASET_ID +:+ "."
         +:+ fmt_env BQ_TABLE_ID in
     print [PStr "Target table_ref:"; PStr table_ref];;
     (* Read CSV from GCS *)
     let uri := "gs://" +:+ py_str bucket +:+ "/" +:+ py_str name in
     print [PStr "Reading CSV from:"; PStr uri];;
     df <- invoke (ReadCsv uri) (read_csv uri);;
     print [PStr "CSV read OK. Rows:"; PNat (len df);
            PStr "Cols:"; PNat (length (columns df))];;
     print [PStr "Columns:"; PCols (take 50 (columns df))];;
     (* Check table existence *)
     table_exists <-
       try_except
         (invoke (GetTable table_ref) (get_table table_ref);;
          print [PStr "Table exists already:"; PStr table_ref];;
          ret true)
         (λ e,
            if is_NotFound e then
              print [PStr "Table does NOT exist yet. It should be created now:";
                     PStr table_ref];;
              ret false
            else raise e);;
     (* Load to BigQuery *)
     let job_config :=
       {| autodetect := true;
          source_format := CSV;
          skip_leading_rows := 1;
          write_disposition :=
            if table_exists then WRITE_APPEND else WRITE_TRUNCATE |} in
     print [PStr "Starting BigQuery load job..."];;
     load_job <- invoke (LoadTableFromDataframe df table_ref job_config)
                   (load_table_from_dataframe df table_ref job_config);;
     id_printed <- read_attr (job_id load_job);;
     print [PStr "Load job id:"; PStr id_printed];;
     invoke (Result load_job) (result load_job);;
     job_state <- read_attr (state load_job);;
     print [PStr "BigQuery load finished. Job state:"; PStr job_state];;
     (* Verify rows in destination table *)
     dest_table <- invoke (GetTable table_ref) (get_table table_ref);;
     print [PStr "Destination table row count (approx):";
            PNat (num_rows dest_table)];;
     id_returned <- read_attr (job_id load_job);;
     ret (jsonify {[ "status" := VStr "success";
                     "file" := name;
                     "rows_loaded" := VInt (Z.of_nat (len df));
                     "bq_table" := VStr table_ref;
                     "table_created_now" := VBool (negb table_exists);
                     "job_id" := VStr id_returned ]},
          200%Z))
    (λ e,
       if is_Exception e then
         print [PStr "=== ERROR OCCURRED ==="];;
         print [PStr "Error:"; PExn e];;
         print [PStr "Traceback:"];;
         print [PTraceback e];;
         raise e
       else raise e).

End Handler.

(** ** A reference world

    An in-memory stand-in for the collaborators, used to run the handler on
    concrete inputs: a bucket of parsed objects, a warehouse of tables with
    their row counts, a counter that numbers the load jobs, and an optional
    outage that makes every warehouse call raise. *)
Module Fake.

Record world := {
  objects : list (string * DataFrame);
  tables : list (string * nat);
  jobs : nat;
  outage : option exn
}.

Fixpoint assoc {A} (k : string) (l : list (string * A)) : option A :=
  match l with
  | [] => None
  | (k', a) :: l' => if String.eqb k k' then Some a else assoc k l'
  end.

Definition fake_read_csv (uri : string) (w : world)
  : (exn + DataFrame) * world :=
  match assoc uri (objects w) with
  | Some df => (inr df, w)
  | None => (inl (OtherException "FileNotFoundError" uri), w)
  end.

Definition fake_get_table (table_ref : string) (w : world)
  : (exn + Table) * world :=
  match outage w with
  | Some e => (inl e, w)
  | None =>
      match assoc table_ref (tables w) with
      | Some n => (inr {| num_rows := n |}, w)
      | None => (inl (NotFound table_ref), w)
      end
  end.

Definition fake_load (df : DataFrame) (table_ref : string)
    (cfg : LoadJobConfig) (w : world) : (exn + LoadJob) * world :=
  match outage w with
  | Some e => (inl e, w)
  | None =>
      let before :=
        match write_disposition cfg, assoc table_ref (tables w) with
        | WRITE_APPEND, Some n => n
        | _, _ => 0
        end in
      (inr {| job_ref := jobs w |},
       {| objects := objects w;
          tables := (table_ref, before + len df) :: tables w;
          jobs := S (jobs w);
          outage := None |})
  end.

Definition fake_result (j : LoadJob) (w : world) : (exn + unit) * world :=
  match outage w with
  | Some e => (inl e, w)
  | None => (inr tt, w)
  end.

#[export] Instance fake : Collaborators world := {|
  read_csv := fake_read_csv;
  get_table := fake_get_table;
  load_table_from_dataframe := fake_load;
  result := fake_result;
  job_id := λ j _, "job-" +:+ pretty (job_ref j);
  state := λ _ _, "DONE"
|}.

(** A bucket holding one CSV of three data rows under two names, and an
    empty warehouse. *)
Definition sample_df : DataFrame :=
  {| columns := ["id"; "city"];
     rows := [["1"; "Pune"]; ["2"; "Oslo"]; ["3"; "Lima"]] |}.

Definition w0 : world :=
  {| objects := [("gs://landing/raw_data/x.csv", sample_df);
                 ("gs://landing/raw_data/x.CSV", sample_df)];
     tables := [];
     jobs := 0;
     outage := None |}.

(** The same bucket once the first load has created the table. *)
Definition w1 : world :=
  {| objects := objects w0;
     tables := [("p.d.t", 3)];
     jobs := 1;
     outage := None |}.

(** The same bucket while the warehouse refuses every call. *)
Definition forbidden : exn := OtherException "Forbidden" "403 Access Denied".

Definition w_down : world :=
  {| objects := objects w0;
     tables := [];
     jobs := 0;
     outage := Some forbidden |}.

Definition notification (bucket name : pyval) : CloudEvent :=
  {| ce_type := Some "google.cloud.storage.object.v1.finalized";
     ce_subject := None;
     ce_data := Some {[ "bucket" := bucket; "name" := name ]} |}.

(** The handler configured for the table [p.d.t]. *)
Definition configured : CloudEvent → M world response :=
  gcs_trigger_process (Some "p") (Some "d") (Some "t").

Definition delivery : CloudEvent :=
  notification (VStr "landing") (VStr "raw_data/x.csv").

(** The first delivery of the object, and a second one once the table
    exists. *)
Definition first_run := configured delivery w0.
Definition second_run := configured delivery w1.

(** A delivery of an object that is not in the bucket. *)
Definition missing_run :=
  configured (notification (VStr "landing") (VStr "raw_data/gone.csv")) w0.

End Fake.

(** * Vocabulary of the claims *)

(** The three components of a finished run. *)
Definition outcome_of {W A} (x : outcome A * W * list event) : outcome A :=
  x.1.1.
Definition world_of {W A} (x : outcome A * W * list event) : W := x.1.2.
Definition trace_of {W A} (x : outcome A * W * list event) : list event :=
  x.2.

(** The fields the handler reads from the event. *)
Definition event_data (ev : CloudEvent) : dict := or_empty (ce_data ev).
Definition event_bucket (ev : CloudEvent) : pyval :=
  dict_get (event_data ev) "bucket".
Definition event_name (ev : CloudEvent) : pyval :=
  dict_get (event_data ev) "name".

(** The three fixed responses. *)
Definition bad_payload : response :=
  (Text "Bad event payload: missing bucket or name", 400%Z).
Definition skipped : response := (Text "", 204%Z).
Definition config_error : response :=
  (Text "Missing env vars: BQ_PROJECT_ID, BQ_DATASET_ID, BQ_TABLE_ID", 500%Z).

(** The spec's target table identifier, [{project}.{dataset}.{table}]. *)
Definition join_ref (project dataset table : string) : string :=
  project +:+ "." +:+ dataset +:+ "." +:+ table.

(** The spec's write mode: append if the table existed, else replace. *)
Definition spec_mode (table_existed : bool) : WriteDisposition :=
  if table_existed then WRITE_APPEND else WRITE_TRUNCATE.

(** What an answer to [get_table] says about the table: it existed exactly
    when the call returned. *)
Definition table_existed (answer : option exn) : bool :=
  match answer with
  | None => true
  | Some _ => false
  end.

(** What the outermost [except Exception] prints before it re-raises. *)
Definition error_report (e : exn) : list event :=
  [Print [PStr "=== ERROR OCCURRED ==="];
   Print [PStr "Error:"; PExn e];
   Print [PStr "Traceback:"];
   Print [PTraceback e]].

(** The object URI the handler reads. *)
Definition gs_uri (bucket : pyval) (name : string) : string :=
  "gs://" +:+ py_str bucket +:+ "/" +:+ name.

(** The load configuration for a table that existed or not. *)
Definition load_config (existed : bool) : LoadJobConfig :=
  {| autodetect := true;
     source_format := CSV;
     skip_leading_rows := 1;
     write_disposition := spec_mode existed |}.

(** What an existence check that lets the invocation go on has found:
    the table if [get_table] returned, no table if it raised [NotFound]. *)
Definition check_answer (answer : exn + Table) : option bool :=
  match answer with
  | inr _ => Some true
  | inl e => if is_NotFound e then Some false else None
  end.

(** The body of the success response. *)
Definition success_body (file : pyval) (rows_loaded : nat) (bq_table : string)
    (table_created_now : bool) (job : string) : dict :=
  {[ "status" := VStr "success";
     "file" := file;
     "rows_loaded" := VInt (Z.of_nat rows_loaded);
     "bq_table" := VStr bq_table;
     "table_created_now" := VBool table_created_now;
     "job_id" := VStr job ]}.

(** ** Vocabulary of the further properties *)

(** The URI and the table reference as the handler formats them, for any
    payload values and any configuration. *)
Definition event_uri (ev : CloudEvent) : string :=
  "gs://" +:+ py_str (event_bucket ev) +:+ "/" +:+ py_str (event_name ev).

Definition config_ref (P D T : option string) : string :=
  fmt_env P +:+ "." +:+ fmt_env D +:+ "." +:+ fmt_env T.

(** The collaborator calls of a complete invocation, in source order. *)
Definition protocol (uri ref : string) (df : DataFrame) (existed : bool)
    (job : LoadJob) : list call :=
  [ReadCsv uri;
   GetTable ref;
   LoadTableFromDataframe df ref (load_config existed);
   Result job;
   GetTable ref].

(** The first line of the error report. *)
Definition error_banner : event := Print [PStr "=== ERROR OCCURRED ==="].

(** ** Further reference worlds *)

(** The reference warehouse interrupted from outside: every warehouse call
    raises [KeyboardInterrupt]. *)
Definition interrupt : exn := BaseOnly "KeyboardInterrupt".

Definition w_interrupted : Fake.world :=
  {| Fake.objects := Fake.objects Fake.w0;
     Fake.tables := [];
     Fake.jobs := 0;
     Fake.outage := Some interrupt |}.

(** The delivery of [Fake.delivery] again, with other event attributes and
    a further payload field. *)
Definition delivery_with_metadata : CloudEvent :=
  {| ce_type := None;
     ce_subject := Some "objects/raw_data/x.csv";
     ce_data := Some {[ "bucket" := VStr "landing";
                        "name" := VStr "raw_data/x.csv";
                        "size" := VStr "42" ]} |}.

(** A notification whose object name is a number. *)
Definition numeric_name : CloudEvent :=
  Fake.notification (VStr "landing") (VInt 5).

(** A warehouse whose table is dropped after the first lookup: the world
    counts the lookups, the first one finds the table, the later ones
    answer not-found; loads and waits succeed. *)
Module Flaky.

Definition flaky_get_table (table_ref : string) (n : nat)
  : (exn + Table) * nat :=
  match n with
  | 0 => (inr {| num_rows := 7 |}, 1)
  | S _ => (inl (NotFound table_ref), S n)
  end.

#[export] Instance flaky : Collaborators nat := {|
  read_csv := λ _ n, (inr Fake.sample_df, n);
  get_table := flaky_get_table;
  load_table_from_dataframe := λ _ _ _ n, (inr {| job_ref := 0 |}, n);
  result := λ _ n, (inr tt, n);
  job_id := λ _ _, "job-0";
  state := λ _ _, "DONE"
|}.

End Flaky.

(** ** Weakest preconditions

    [wp m w Q]: running [m] from the world [w] ends in an outcome, a world
    and a trace that satisfy [Q].  The monad is total, so [wp] is both the
    partial and the total reading. *)
Definition wp {W A} (m : M W A) (w : W)
    (Q : outcome A → W → list event → Prop) : Prop :=
  match m w with (o, w', t) => Q o w' t end.

(** * Reasoning about handler programs *)

(** ** Rules of the weakest precondition *)

Section WP.
Context {W : Type}.

Lemma wp_run {A} (m : M W A) (w : W) Q o w' t :
  wp m w Q → m w = (o, w', t) → Q o w' t.
Proof. unfold wp. intros HQ Hm. by rewrite Hm in HQ. Qed.

Lemma wp_total {A} (m : M W A) (w : W) Q :
  wp m w Q → ∃ o w' t, m w = (o, w', t) ∧ Q o w' t.
Proof. unfold wp. destruct (m w) as [[o w'] t]. eauto. Qed.

Lemma wp_ret {A} (a : A) (w : W) Q : Q (Ret a) w [] → wp (ret a) w Q.
Proof. done. Qed.

Lemma wp_raise {A} e (w : W) (Q : outcome A → W → list event → Prop) :
  Q (Raise e) w [] → wp (raise e) w Q.
Proof. done. Qed.

Lemma wp_print args (w : W) Q :
  Q (Ret tt) w [Print args] → wp (print args) w Q.
Proof. done. Qed.

Lemma wp_read_attr {A} (f : W → A) (w : W) Q :
  Q (Ret (f w)) w [] → wp (read_attr f) w Q.
Proof. done. Qed.

Lemma wp_invoke {A} c (f : W → (exn + A) * W) (w : W) Q :
  (∀ a w1, f w = (inr a, w1) → Q (Ret a) w1 [Call c None]) →
  (∀ e w1, f w = (inl e, w1) → Q (Raise e) w1 [Call c (Some e)]) →
  wp (invoke c f) w Q.
Proof.
  unfold wp, invoke. intros Hok Herr.
  destruct (f w) as [[e|a] w1]; [by apply Herr | by apply Hok].
Qed.

Lemma wp_bind {A B} (m : M W A) (f : A → M W B) (w : W) Q :
  wp m w (λ o w1 t1,
    match o with
    | Ret a => wp (f a) w1 (λ o' w2 t2, Q o' w2 (t1 ++ t2))
    | Raise e => Q (Raise e) w1 t1
    end) →
  wp (bind m f) w Q.
Proof.
  unfold wp, bind. destruct (m w) as [[[a|e] w1] t1]; [|done].
  by destruct (f a w1) as [[o' w2] t2].
Qed.

Lemma wp_try_except {A} (m : M W A) (h : exn → M W A) (w : W) Q :
  wp m w (λ o w1 t1,
    match o with
    | Ret a => Q (Ret a) w1 t1
    | Raise e => wp (h e) w1 (λ o' w2 t2, Q o' w2 (t1 ++ t2))
    end) →
  wp (try_except m h) w Q.
Proof.
  unfold wp, try_except. destruct (m w) as [[[a|e] w1] t1]; [done|].
  by destruct (h e w1) as [[o' w2] t2].
Qed.

Lemma wp_str_method_str {A} attr s (f : string → A) (w : W) Q :
  Q (Ret (f s)) w [] → wp (str_method attr (VStr s) f) w Q.
Proof. done. Qed.

Lemma wp_str_method {A} attr v (f : string → A) (w : W) Q :
  (∀ s, v = VStr s → Q (Ret (f s)) w []) →
  ((∀ s, v ≠ VStr s) → Q (Raise (AttributeError attr)) w []) →
  wp (str_method attr v f) w Q.
Proof.
  intros Hs Hn. destruct v; try (apply Hn; congruence). by apply Hs.
Qed.

End WP.

(** One step of symbolic execution.  A branch condition or a collaborator
    answer that a hypothesis fixes is rewritten with it; the others are
    split. *)
Ltac wp_if b :=
  first
    [ match goal with
      | H : b = _ |- _ => rewrite H
      end
    | lazymatch b with
      | negb ?c =>
          match goal with
          | H : c = _ |- _ => rewrite H; cbn [negb]
          end
      end
    | destruct b eqn:? ].

Ltac wp_call :=
  apply wp_invoke;
  [ let a := fresh "a" in let w := fresh "w" in let H := fresh "Hok" in
    intros a w H
  | let e := fresh "e" in let w := fresh "w" in let H := fresh "Herr" in
    intros e w H ];
  cbv beta iota;
  try match goal with
      | H1 : ?f = _, H2 : ?f = _ |- _ => rewrite H1 in H2; simplify_eq
      end.

Ltac wp_step :=
  lazymatch goal with
  | |- wp (bind _ _) _ _ => apply wp_bind
  | |- wp (try_except _ _) _ _ => apply wp_try_except
  | |- wp (print _) _ _ => apply wp_print; cbv beta iota
  | |- wp (ret _) _ _ => apply wp_ret; cbv beta iota
  | |- wp (raise _) _ _ => apply wp_raise; cbv beta iota
  | |- wp (read_attr _) _ _ => apply wp_read_attr; cbv beta iota
  | |- wp (invoke _ _) _ _ => wp_call
  | |- wp (str_method _ (VStr _) _) _ _ =>
      apply wp_str_method_str; cbv beta iota
  | |- wp (str_method _ _ _) _ _ =>
      apply wp_str_method;
      [ let s := fresh "s" in let H := fresh "Hstr" in
        intros s H; rewrite ?H
      | let H := fresh "Hnostr" in intros H ];
      cbv beta iota
  | |- wp (if ?b then _ else _) _ _ => wp_if b
  end.

Ltac wp_exec := unfold gcs_trigger_process; cbv zeta; repeat wp_step.

(** ** Facts about values, strings and lists *)

(** A missing key and an empty string are both falsy. *)
Lemma truthy_missing (d : dict) k :
  d !! k = None → truthy (dict_get d k) = false.
Proof. unfold dict_get. by intros ->. Qed.

Lemma truthy_empty_str (d : dict) k :
  d !! k = Some (VStr "") → truthy (dict_get d k) = false.
Proof. unfold dict_get. by intros ->. Qed.

Lemma truthy_str s : s ≠ "" → truthy (VStr s) = true.
Proof. intros Hs. simpl. by destruct s. Qed.

Lemma startswith_nonempty s a pre :
  startswith s (String a pre) = true → s ≠ "".
Proof. by destruct s. Qed.

Lemma app_cons a s r : String a s +:+ r = String a (s +:+ r).
Proof. reflexivity. Qed.

Lemma lower_length s : String.length (lower s) = String.length s.
Proof. induction s as [|c s IH]; simpl; [done|by rewrite IH]. Qed.

Lemma lower_app a b : lower (a +:+ b) = lower a +:+ lower b.
Proof.
  induction a as [|c a IH]; [done|].
  rewrite app_cons. simpl. by rewrite IH.
Qed.

Lemma startswith_app lit rest : startswith (lit +:+ rest) lit = true.
Proof.
  induction lit as [|c lit IH]; [done|].
  rewrite app_cons. simpl. by rewrite Ascii.eqb_refl, IH.
Qed.

(** A prefix test against a literal of the same length is an equality. *)
Lemma startswith_same_length pre rest lit :
  String.length pre = String.length lit →
  startswith (pre +:+ rest) lit = true → pre = lit.
Proof.
  revert lit. induction pre as [|c pre IH]; intros [|c' lit]; try done.
  rewrite app_cons. simpl. intros [= Hlen] [Hc Hrest]%andb_prop.
  apply Ascii.eqb_eq in Hc as ->. f_equal. by apply IH.
Qed.

Lemma endswith_unfold s suf :
  endswith s suf =
  String.eqb s suf ||
  match s with
  | EmptyString => false
  | String _ s' => endswith s' suf
  end.
Proof. by destruct s. Qed.

Lemma endswith_refl s : endswith s s = true.
Proof. by rewrite endswith_unfold, String.eqb_refl. Qed.

Lemma endswith_app_l a b suf :
  endswith b suf = true → endswith (a +:+ b) suf = true.
Proof.
  intros Hb. induction a as [|c a IH]; [done|].
  rewrite app_cons, endswith_unfold, IH. apply orb_true_r.
Qed.

Lemma truthy_env_Some o : truthy_env o = true → ∃ s, o = Some s ∧ s ≠ "".
Proof.
  destruct o as [s|]; [|done]. intros Hs. exists s. split; [done|].
  intros ->. done.
Qed.

Lemma config_complete P D T :
  negb (truthy_env P && truthy_env D && truthy_env T) = false →
  ∃ p d t, P = Some p ∧ D = Some d ∧ T = Some t ∧ p ≠ "" ∧ d ≠ "" ∧ t ≠ "".
Proof.
  intros H%negb_false_iff. apply andb_prop in H as [H HT].
  apply andb_prop in H as [HP HD].
  apply truthy_env_Some in HP as (p & -> & ?).
  apply truthy_env_Some in HD as (d & -> & ?).
  apply truthy_env_Some in HT as (t & -> & ?).
  by exists p, d, t.
Qed.

(** Where an entry sits in a list that is known up to its first element. *)
Lemma cons_split_inv {A} (a x : A) l pre post :
  a :: l = pre ++ x :: post →
  (pre = [] ∧ a = x ∧ l = post) ∨
  (∃ pre', pre = a :: pre' ∧ l = pre' ++ x :: post).
Proof.
  destruct pre as [|b pre]; simpl; intros [= -> ->]; [by left|].
  right. by exists pre.
Qed.

Lemma nil_split_inv {A} (x : A) pre post : [] = pre ++ x :: post → False.
Proof. by destruct pre. Qed.

(** Enumerate the positions of an entry in a list of known length. *)
Ltac split_calls H :=
  repeat
    (first
       [ apply nil_split_inv in H; destruct H
       | apply cons_split_inv in H;
         destruct H as [(-> & ? & ?) | (? & -> & H)] ]).

(** A trace that is known entry by entry ends with a given report. *)
Ltac ends_with :=
  solve [ repeat first [ reflexivity | apply suffix_cons_r ] ].

(** * The claims *)

Section Claims.
Context {W : Type} `{!Collaborators W}.
Variables P D T : option string.

(** C5. A notification whose bucket or object name is missing or empty
    (falsy in general) gets the 400 bad-payload response; the world is
    untouched and the trace holds no collaborator call. *)
Theorem bad_payload_no_downstream_calls (ev : CloudEvent) (w : W) :
  truthy (event_bucket ev) = false ∨ truthy (event_name ev) = false →
  ∃ tr,
    gcs_trigger_process P D T ev w = (Ret bad_payload, w, tr) ∧
    calls tr = [].
Proof.
  intros Hfalsy.
  assert (negb (truthy (dict_get (or_empty (ce_data ev)) "bucket"))
          || negb (truthy (dict_get (or_empty (ce_data ev)) "name")) = true)
    as Hguard.
  { unfold event_bucket, event_name, event_data in Hfalsy.
    destruct Hfalsy as [-> | ->]; [done | apply orb_true_r]. }
  destruct (wp_total (gcs_trigger_process P D T ev) w
              (λ o w' tr, o = Ret bad_payload ∧ w' = w ∧ calls tr = []))
    as (o & w' & tr & Hrun & -> & -> & Hcalls).
  { wp_exec. done. }
  eauto.
Qed.

(** The validation guard of a notification that carries a bucket and a
    non-empty string as object name. *)
Lemma valid_guard (ev : CloudEvent) s :
  truthy (event_bucket ev) = true → event_name ev = VStr s → s ≠ "" →
  negb (truthy (dict_get (or_empty (ce_data ev)) "bucket"))
  || negb (truthy (dict_get (or_empty (ce_data ev)) "name")) = false.
Proof.
  unfold event_bucket, event_name, event_data. intros -> -> Hs.
  by rewrite truthy_str.
Qed.

(** A valid notification that fails the prefix test or the extension
    test is skipped, whatever the configuration. *)
Lemma filtered_out_run (ev : CloudEvent) (w : W) s :
  truthy (event_bucket ev) = true → event_name ev = VStr s → s ≠ "" →
  startswith s "raw_data/" = false ∨ endswith (lower s) ".csv" = false →
  ∃ tr,
    gcs_trigger_process P D T ev w = (Ret skipped, w, tr) ∧ calls tr = [].
Proof.
  intros Hb Hn Hs Hfilter.
  pose proof (valid_guard ev s Hb Hn Hs) as Hguard.
  unfold event_name, event_data in Hn.
  destruct (wp_total (gcs_trigger_process P D T ev) w
              (λ o w' tr, o = Ret skipped ∧ w' = w ∧ calls tr = []))
    as (o & w' & tr & Hrun & -> & -> & Hcalls); [|by eauto].
  unfold gcs_trigger_process; cbv zeta. rewrite Hn in Hguard |- *.
  destruct Hfilter as [Hpre | Hext]; by repeat wp_step.
Qed.

(** C4 (amended). A notification that passes validation (a bucket, and a
    non-empty string as object name) and whose object name does not start
    with ["raw_data/"], or does not end in [".csv"] once lower-cased, gets
    the 204 skip response; the world is untouched and the trace holds no
    storage or warehouse call. *)
Theorem filtered_out_skipped_without_calls (ev : CloudEvent) (w : W) s :
  truthy (event_bucket ev) = true → event_name ev = VStr s → s ≠ "" →
  startswith s "raw_data/" = false ∨ endswith (lower s) ".csv" = false →
  ∃ tr,
    gcs_trigger_process P D T ev w = (Ret skipped, w, tr) ∧ calls tr = [].
Proof. apply filtered_out_run. Qed.

(** C6. With one of the three identifiers missing (unset or empty), a
    notification that passes validation and the filter gets the 500
    configuration-error response with no storage read and no warehouse
    call, and a filtered-out notification still gets 204. *)
Theorem missing_config_checked_after_filter :
  truthy_env P = false ∨ truthy_env D = false ∨ truthy_env T = false →
  (∀ (ev : CloudEvent) (w : W) s,
     truthy (event_bucket ev) = true → event_name ev = VStr s →
     startswith s "raw_data/" = true → endswith (lower s) ".csv" = true →
     ∃ tr,
       gcs_trigger_process P D T ev w = (Ret config_error, w, tr) ∧
       calls tr = []) ∧
  (∀ (ev : CloudEvent) (w : W) s,
     truthy (event_bucket ev) = true → event_name ev = VStr s → s ≠ "" →
     startswith s "raw_data/" = false ∨ endswith (lower s) ".csv" = false →
     ∃ tr,
       gcs_trigger_process P D T ev w = (Ret skipped, w, tr) ∧
       calls tr = []).
Proof.
  intros Hmissing. split; [|apply filtered_out_run].
  intros ev w s Hb Hn Hpre Hext.
  pose proof (valid_guard ev s Hb Hn (startswith_nonempty _ _ _ Hpre))
    as Hguard.
  assert (negb (truthy_env P && truthy_env D && truthy_env T) = true)
    as Hcfg.
  { destruct Hmissing as [-> | [-> | ->]];
      [done | by rewrite andb_false_r | by rewrite andb_false_r]. }
  unfold event_name, event_data in Hn.
  destruct (wp_total (gcs_trigger_process P D T ev) w
              (λ o w' tr, o = Ret config_error ∧ w' = w ∧ calls tr = []))
    as (o & w' & tr & Hrun & -> & -> & Hcalls); [|by eauto].
  unfold gcs_trigger_process; cbv zeta. rewrite Hn in Hguard |- *.
  by repeat wp_step.
Qed.

(** C9. When the event carries no data at all, or an empty mapping, the
    handler works on the empty payload, reaches the validation and
    returns the 400 bad-payload response; nothing is raised. *)
Theorem absent_data_is_bad_payload (ev : CloudEvent) (w : W) :
  ce_data ev = None ∨ ce_data ev = Some ∅ →
  event_data ev = ∅ ∧
  gcs_trigger_process P D T ev w =
    (Ret bad_payload, w,
     [Print [PStr "=== EVENT RECEIVED ==="];
      Print [PStr "CloudEvent type:"; POpt (ce_type ev)];
      Print [PStr "CloudEvent subject:"; POpt (ce_subject ev)];
      Print [PStr "Event data keys:"; PKeys ∅];
      Print [PStr "Event data (first 2000 chars):"; PText 2000 ∅];
      Print [PStr "ERROR: Missing bucket or name in event payload:";
             PDict ∅]]).
Proof.
  intros Habsent.
  assert (or_empty (ce_data ev) = ∅) as Hempty.
  { by destruct Habsent as [-> | ->]. }
  split; [done|].
  match goal with
  | |- _ = (?o, ?w, ?tr) =>
      destruct (wp_total (gcs_trigger_process P D T ev) w
                  (λ o' w' tr', o' = o ∧ w' = w ∧ tr' = tr))
        as (? & ? & ? & Hrun & -> & -> & ->); [|done]
  end.
  unfold gcs_trigger_process; cbv zeta. rewrite Hempty.
  assert (negb (truthy (dict_get ∅ "bucket"))
          || negb (truthy (dict_get ∅ "name")) = true) as Hguard by done.
  by repeat wp_step.
Qed.

(** C3. Whenever the handler returns a 200 success response, the three
    identifiers are configured and the [bq_table] field of the body is
    their join [{project}.{dataset}.{table}]. *)
Theorem success_names_configured_table (ev : CloudEvent) (w w' : W) b tr :
  gcs_trigger_process P D T ev w = (Ret (b, 200%Z), w', tr) →
  ∃ p d t body,
    P = Some p ∧ D = Some d ∧ T = Some t ∧ b = Json body ∧
    body !! "bq_table" = Some (VStr (join_ref p d t)).
Proof.
  intros Hrun.
  refine (wp_run _ w
    (λ o _ _, ∀ b, o = Ret (b, 200%Z) →
       ∃ p d t body,
         P = Some p ∧ D = Some d ∧ T = Some t ∧ b = Json body ∧
         body !! "bq_table" = Some (VStr (join_ref p d t)))
    _ _ _ _ Hrun b eq_refl).
  clear Hrun. wp_exec.
  all: intros b0 [= <-].
  all: match goal with
       | H : negb (truthy_env P && _ && _) = false |- _ =>
           apply config_complete in H
             as (p & d & t & -> & -> & -> & _)
       end.
  all: exists p, d, t; eexists; repeat split.
Qed.

(** C1. Whenever a load job is submitted, the call right before it is the
    existence check on the same table, and the job's write mode is
    [spec_mode] of that check's answer: append if [get_table] returned,
    truncate if it answered not-found.  This holds for every event,
    world and configuration, so nothing else enters the choice. *)
Theorem write_mode_from_existence_check
    (ev : CloudEvent) (w w' : W) o tr pre df ref cfg r post :
  gcs_trigger_process P D T ev w = (o, w', tr) →
  calls tr = pre ++ (LoadTableFromDataframe df ref cfg, r) :: post →
  ∃ pre' answer,
    pre = pre' ++ [(GetTable ref, answer)] ∧
    write_disposition cfg = spec_mode (table_existed answer).
Proof.
  intros Hrun.
  refine (wp_run _ w
    (λ _ _ tr, ∀ pre,
       calls tr = pre ++ (LoadTableFromDataframe df ref cfg, r) :: post →
       ∃ pre' answer,
         pre = pre' ++ [(GetTable ref, answer)] ∧
         write_disposition cfg = spec_mode (table_existed answer))
    _ _ _ _ Hrun pre).
  clear Hrun pre. wp_exec.
  all: cbn [app calls]; intros pre Hcalls; split_calls Hcalls.
  all: simplify_eq.
  all: by eexists [_], _.
Qed.

(** C8. A collaborator call that raises ends the invocation: it is the
    last call made, the handler raises that same exception instead of
    returning a response, and (the exception being an [Exception], as
    read, query and load failures are) the trace ends with the error
    report: banner, message and traceback.  The one raised answer that
    does not end the run is not-found at the existence check, which is
    the check saying that the table is absent. *)
Theorem failures_logged_and_reraised
    (ev : CloudEvent) (w w' : W) o tr pre c e post :
  gcs_trigger_process P D T ev w = (o, w', tr) →
  calls tr = pre ++ (c, Some e) :: post →
  (∃ uri ref,
     pre = [(ReadCsv uri, None)] ∧ c = GetTable ref ∧
     is_NotFound e = true ∧ post ≠ []) ∨
  (post = [] ∧ o = Raise e ∧
   (is_Exception e = true → ∃ tr0, tr = tr0 ++ error_report e)).
Proof.
  intros Hrun.
  refine (wp_run _ w
    (λ o _ tr, ∀ pre,
       calls tr = pre ++ (c, Some e) :: post →
       (∃ uri ref,
          pre = [(ReadCsv uri, None)] ∧ c = GetTable ref ∧
          is_NotFound e = true ∧ post ≠ []) ∨
       (post = [] ∧ o = Raise e ∧
        (is_Exception e = true → suffix (error_report e) tr)))
    _ _ _ _ Hrun pre).
  clear Hrun pre. wp_exec.
  all: cbn [app calls]; intros pre Hcalls; split_calls Hcalls.
  all: simplify_eq.
  all: first
         [ by left; do 2 eexists
         | right; split; [done|]; split; [done|];
           intros ?; first [congruence | unfold error_report; ends_with] ].
Qed.

End Claims.

(** ** Invocations under a complete configuration *)

Section Configured.
Context {W : Type} `{!Collaborators W}.
Variables p d t : string.
Hypothesis Hp : p ≠ "".
Hypothesis Hd : d ≠ "".
Hypothesis Ht : t ≠ "".

Local Abbreviation handler := (gcs_trigger_process (Some p) (Some d) (Some t)).
Local Abbreviation ref := (join_ref p d t).

Lemma config_guard :
  negb (truthy_env (Some p) && truthy_env (Some d) && truthy_env (Some t))
  = false.
Proof using Hp Hd Ht.
  simpl. destruct p, d, t; done.
Qed.

Lemma success_body_dom file n table created job :
  dom (success_body file n table created job) =
  ({[ "status"; "file"; "rows_loaded"; "bq_table"; "table_created_now";
      "job_id" ]} : gset string).
Proof.
  unfold success_body. rewrite !dom_insert_L, dom_singleton_L. set_solver.
Qed.

(** C2. On a notification that passes the filter, when the CSV is read
    into a frame of [N] data rows, the existence check finds the table or
    answers not-found, and the load, the wait and the final metadata
    fetch succeed, the handler returns 200 with a JSON body of exactly
    the six keys, where [rows_loaded] is [N], the length of the parsed
    frame, whatever row count the destination table reports, and
    [table_created_now] is the negation of what the check found. *)
Theorem success_response
    (ev : CloudEvent) s (w w1 w2 w3 w4 w5 : W)
    df N answer existed job u dest :
  truthy (event_bucket ev) = true → event_name ev = VStr s →
  startswith s "raw_data/" = true → endswith (lower s) ".csv" = true →
  read_csv (gs_uri (event_bucket ev) s) w = (inr df, w1) →
  length (rows df) = N →
  get_table ref w1 = (answer, w2) →
  check_answer answer = Some existed →
  load_table_from_dataframe df ref (load_config existed) w2
    = (inr job, w3) →
  result job w3 = (inr u, w4) →
  get_table ref w4 = (inr dest, w5) →
  ∃ tr body,
    handler ev w = (Ret (Json body, 200%Z), w5, tr) ∧
    body = success_body (VStr s) N ref (negb existed) (job_id job w5) ∧
    dom body = {[ "status"; "file"; "rows_loaded"; "bq_table";
                  "table_created_now"; "job_id" ]} ∧
    body !! "rows_loaded" = Some (VInt (Z.of_nat N)) ∧
    body !! "table_created_now" = Some (VBool (negb existed)).
Proof using Hp Hd Ht.
  intros Hb Hn Hpre Hext Hread <- Hcheck Hans Hload Hwait Hdest.
  pose proof (valid_guard ev s Hb Hn (startswith_nonempty _ _ _ Hpre))
    as Hguard.
  pose proof config_guard as Hcfg.
  unfold event_name, gs_uri, event_bucket, event_data, join_ref in *.
  destruct (wp_total (handler ev) w
    (λ o w' _,
       o = Ret (jsonify (success_body (VStr s) (len df) ref (negb existed)
                           (job_id job w5)), 200%Z) ∧ w' = w5))
    as (o & w' & tr & Hrun & -> & ->).
  { unfold gcs_trigger_process; cbv zeta.
    rewrite Hn in Hguard |- *. cbn [py_str fmt_env].
    destruct answer as [e|found]; simpl in Hans.
    - destruct (is_NotFound e) eqn:Hnf; [|done].
      injection Hans as <-. cbv [load_config spec_mode] in Hload.
      by repeat wp_step.
    - injection Hans as <-. cbv [load_config spec_mode] in Hload.
      by repeat wp_step. }
  eexists _, _. split; [exact Hrun|]. split; [done|].
  split; [apply success_body_dom|done].
Qed.

(** C7. At the existence check, after a successful read: a [NotFound]
    answer means the table is absent and the invocation goes on to
    submit the load, in the mode for an absent table; any other exception
    ends the invocation, which raises it with no further call. *)
Theorem not_found_is_absence_other_errors_propagate
    (ev : CloudEvent) s (w w1 w2 : W) df e :
  truthy (event_bucket ev) = true → event_name ev = VStr s →
  startswith s "raw_data/" = true → endswith (lower s) ".csv" = true →
  read_csv (gs_uri (event_bucket ev) s) w = (inr df, w1) →
  get_table ref w1 = (inl e, w2) →
  (is_NotFound e = true →
   ∃ o w' tr r rest,
     handler ev w = (o, w', tr) ∧
     calls tr =
       (ReadCsv (gs_uri (event_bucket ev) s), None)
       :: (GetTable ref, Some e)
       :: (LoadTableFromDataframe df ref (load_config false), r)
       :: rest) ∧
  (is_NotFound e = false →
   ∃ tr,
     handler ev w = (Raise e, w2, tr) ∧
     calls tr =
       [(ReadCsv (gs_uri (event_bucket ev) s), None);
        (GetTable ref, Some e)]).
Proof using Hp Hd Ht.
  intros Hb Hn Hpre Hext Hread Hcheck.
  pose proof (valid_guard ev s Hb Hn (startswith_nonempty _ _ _ Hpre))
    as Hguard.
  pose proof config_guard as Hcfg.
  unfold event_name, gs_uri, event_bucket, event_data, join_ref in *.
  rewrite Hn in Hguard.
  split; intros Hnf.
  - destruct (wp_total (handler ev) w
      (λ _ _ tr, ∃ r rest,
         calls tr =
           (ReadCsv ("gs://" +:+
                     py_str (dict_get (or_empty (ce_data ev)) "bucket")
                     +:+ "/" +:+ s), None)
           :: (GetTable (p +:+ "." +:+ d +:+ "." +:+ t), Some e)
           :: (LoadTableFromDataframe df (p +:+ "." +:+ d +:+ "." +:+ t)
                 (load_config false), r)
           :: rest))
      as (o & w' & tr & Hrun & r & rest & Hcalls); [|by eauto 10].
    unfold gcs_trigger_process; cbv zeta.
    rewrite Hn. cbn [py_str fmt_env].
    repeat wp_step.
    all: cbn [app calls]; by do 2 eexists.
  - destruct (wp_total (handler ev) w
      (λ o w' tr,
         o = Raise e ∧ w' = w2 ∧
         calls tr =
           [(ReadCsv ("gs://" +:+
                      py_str (dict_get (or_empty (ce_data ev)) "bucket")
                      +:+ "/" +:+ s), None);
            (GetTable (p +:+ "." +:+ d +:+ "." +:+ t), Some e)]))
      as (o & w' & tr & Hrun & -> & -> & Hcalls); [|by eauto].
    unfold gcs_trigger_process; cbv zeta.
    rewrite Hn. cbn [py_str fmt_env].
    by repeat wp_step.
Qed.

(** C10. The prefix test is case-sensitive and the extension test is
    not.  An object name whose first nine characters match ["raw_data/"]
    only up to letter case is skipped with 204 and no call; an object
    name under ["raw_data/"] whose extension lower-cases to [".csv"]
    passes the filter: the handler goes on to read the object. *)
Theorem prefix_case_sensitive_extension_not :
  (∀ (ev : CloudEvent) (w : W) pre rest,
     truthy (event_bucket ev) = true →
     event_name ev = VStr (pre +:+ rest) →
     lower pre = "raw_data/" → pre ≠ "raw_data/" →
     ∃ tr, handler ev w = (Ret skipped, w, tr) ∧ calls tr = []) ∧
  (∀ (ev : CloudEvent) (w : W) stem ext,
     truthy (event_bucket ev) = true →
     event_name ev = VStr ("raw_data/" +:+ stem +:+ ext) →
     lower ext = ".csv" →
     ∃ o w' tr r rest,
       handler ev w = (o, w', tr) ∧
       calls tr =
         (ReadCsv (gs_uri (event_bucket ev)
                     ("raw_data/" +:+ stem +:+ ext)), r) :: rest).
Proof using Hp Hd Ht.
  split.
  - intros ev w pre rest Hb Hn Hlow Hne.
    apply (filtered_out_run _ _ _ ev w (pre +:+ rest)); [done|done| |].
    + destruct pre; [done|]. by rewrite app_cons.
    + left. apply not_true_is_false. intros Hstarts.
      apply Hne, (startswith_same_length pre rest); [|done].
      by rewrite <- (lower_length pre), Hlow.
  - intros ev w stem ext Hb Hn Hlow.
    assert (startswith ("raw_data/" +:+ stem +:+ ext) "raw_data/" = true)
      as Hpre by apply startswith_app.
    assert (endswith (lower ("raw_data/" +:+ stem +:+ ext)) ".csv" = true)
      as Hext.
    { rewrite !lower_app, Hlow.
      apply endswith_app_l, endswith_app_l, endswith_refl. }
    pose proof (valid_guard ev _ Hb Hn (startswith_nonempty _ _ _ Hpre))
      as Hguard.
    pose proof config_guard as Hcfg.
    unfold event_name, gs_uri, event_bucket, event_data in *.
    rewrite Hn in Hguard.
    destruct (wp_total (handler ev) w
      (λ _ _ tr, ∃ r rest,
         calls tr =
           (ReadCsv ("gs://" +:+
                     py_str (dict_get (or_empty (ce_data ev)) "bucket")
                     +:+ "/" +:+ "raw_data/" +:+ stem +:+ ext), r)
           :: rest))
      as (o & w' & tr & Hrun & r & rest & Hcalls); [|by eauto 10].
    unfold gcs_trigger_process; cbv zeta.
    rewrite Hn. cbn [py_str fmt_env].
    repeat wp_step.
    all: cbn [app calls]; by do 2 eexists.
Qed.

End Configured.

(** * Further properties of the handler *)

(** ** More facts about strings *)

Lemma startswith_split s pre :
  startswith s pre = true → ∃ rest, s = pre +:+ rest.
Proof.
  revert s. induction pre as [|c pre IH]; intros s; [by exists s|].
  destruct s as [|c' s]; [done|]. simpl.
  intros [Hc Hrest]%andb_prop. apply Ascii.eqb_eq in Hc as ->.
  destruct (IH s Hrest) as [rest ->]. by exists rest.
Qed.

Lemma endswith_split s suf :
  endswith s suf = true → ∃ front, s = front +:+ suf.
Proof.
  induction s as [|c s IH]; rewrite endswith_unfold.
  - rewrite orb_false_r. intros ->%String.eqb_eq. by exists "".
  - intros [->%String.eqb_eq | Hs]%orb_prop; [by exists ""|].
    destruct (IH Hs) as [front ->]. by exists (String c front).
Qed.

Lemma lower_split s a' b' :
  lower s = a' +:+ b' →
  ∃ a b, s = a +:+ b ∧ lower a = a' ∧ lower b = b'.
Proof.
  revert s. induction a' as [|c a' IH]; intros s Hs.
  - by exists "", s.
  - destruct s as [|c' s]; [done|].
    rewrite app_cons in Hs. simpl in Hs. injection Hs as Hc Hs.
    destruct (IH s Hs) as (a & b & -> & <- & <-).
    exists (String c' a), b. by rewrite <- Hc.
Qed.

(** The extension cannot overlap the prefix: what follows ["raw_data/"]
    already ends in [".csv"]. *)
Lemma endswith_after_prefix x :
  endswith ("raw_data/" +:+ x) ".csv" = true → endswith x ".csv" = true.
Proof.
  do 9 (rewrite app_cons, endswith_unfold; simpl String.eqb;
        rewrite orb_false_l).
  done.
Qed.

(** The object names that pass both filter tests. *)
Lemma passes_filter_iff s :
  startswith s "raw_data/" = true ∧ endswith (lower s) ".csv" = true ↔
  ∃ stem ext, s = "raw_data/" +:+ stem +:+ ext ∧ lower ext = ".csv".
Proof.
  split.
  - intros [[rest ->]%startswith_split Hext].
    rewrite lower_app in Hext. apply endswith_after_prefix in Hext.
    apply endswith_split in Hext as [front Hrest].
    apply lower_split in Hrest as (stem & ext & -> & _ & Hlow).
    by exists stem, ext.
  - intros (stem & ext & -> & Hlow). split; [apply startswith_app|].
    rewrite !lower_app, Hlow.
    apply endswith_app_l, endswith_app_l, endswith_refl.
Qed.

(** A step that uses what an earlier run of the same test has shown. *)
Ltac wp_step_again :=
  lazymatch goal with
  | |- wp (str_method _ ?v _) _ _ =>
      first
        [ match goal with
          | Hno : ∀ s, v ≠ VStr s |- _ =>
              apply wp_str_method;
              [ let s := fresh "s" in let Hs := fresh "Hs" in
                intros s Hs; destruct (Hno s Hs)
              | intros _ ];
              cbv beta iota
          end
        | wp_step ]
  | |- _ => wp_step
  end.


(** Membership in a trace that is known entry by entry. *)
Ltac not_in_trace H :=
  repeat (apply elem_of_cons in H as [H|H]; [discriminate H|]);
  by apply elem_of_nil in H.

Section Further.
Context {W : Type} `{!Collaborators W}.
Variables P D T : option string.

(** X1. A truthy object name that is not a string (a number, a list)
    passes the validation, and the prefix test on it raises
    [AttributeError]: the handler reports the error and raises, with no
    collaborator call and the world untouched. *)
Theorem non_string_name_raises_attribute_error (ev : CloudEvent) (w : W) :
  truthy (event_bucket ev) = true →
  truthy (event_name ev) = true →
  (∀ s, event_name ev ≠ VStr s) →
  ∃ tr,
    gcs_trigger_process P D T ev w
      = (Raise (AttributeError "startswith"), w, tr) ∧
    calls tr = [] ∧
    ∃ tr0, tr = tr0 ++ error_report (AttributeError "startswith").
Proof.
  intros Hb Hn Hns.
  assert (negb (truthy (dict_get (or_empty (ce_data ev)) "bucket"))
          || negb (truthy (dict_get (or_empty (ce_data ev)) "name")) = false)
    as Hguard.
  { unfold event_bucket, event_name, event_data in Hb, Hn.
    by rewrite Hb, Hn. }
  unfold event_name, event_data in Hns.
  destruct (wp_total (gcs_trigger_process P D T ev) w
    (λ o w' tr,
       o = Raise (AttributeError "startswith") ∧ w' = w ∧ calls tr = [] ∧
       suffix (error_report (AttributeError "startswith")) tr))
    as (o & w' & tr & Hrun & -> & -> & Hcalls & Hlog); [|by eauto].
  unfold gcs_trigger_process; cbv zeta.
  do 13 wp_step.
  apply wp_str_method; [intros s Hs; by destruct (Hns s)|intros _].
  cbv beta iota. repeat wp_step.
  all: try discriminate.
  do 3 (split; [done|]). unfold error_report. cbn [app]. ends_with.
Qed.

(** X2. Whatever the handler returns is one of the three fixed text
    responses (400, 204, 500) or a JSON body with status 200. *)
Theorem responses_are_the_four_kinds (ev : CloudEvent) (w w' : W) r tr :
  gcs_trigger_process P D T ev w = (Ret r, w', tr) →
  r = bad_payload ∨ r = skipped ∨ r = config_error ∨
  ∃ body, r = (Json body, 200%Z).
Proof.
  intros Hrun.
  refine (wp_run _ w
    (λ o _ _, ∀ r, o = Ret r →
       r = bad_payload ∨ r = skipped ∨ r = config_error ∨
       ∃ body, r = (Json body, 200%Z))
    _ _ _ _ Hrun r eq_refl).
  clear Hrun. wp_exec.
  all: intros r0 [= <-]; eauto 10.
Qed.

(** X3. The collaborator calls of any invocation are an initial part of
    one fixed sequence: read the object at [gs://bucket/name], look up the
    configured table, submit one CSV load of the frame (autodetect, one
    leading row skipped, append or truncate), wait for that job, look up
    the table again.  Nothing is called twice beyond that, and nothing
    else is called. *)
Theorem calls_follow_the_protocol (ev : CloudEvent) (w w' : W) o tr :
  gcs_trigger_process P D T ev w = (o, w', tr) →
  ∃ df existed job rest,
    protocol (event_uri ev) (config_ref P D T) df existed job
      = map fst (calls tr) ++ rest.
Proof.
  intros Hrun.
  refine (wp_run _ w
    (λ _ _ tr, ∃ df existed job rest,
       protocol (event_uri ev) (config_ref P D T) df existed job
         = map fst (calls tr) ++ rest)
    _ _ _ _ Hrun).
  clear Hrun.
  unfold protocol, event_uri, config_ref, event_bucket, event_name,
    event_data.
  wp_exec.
  all: cbn [app calls map fst].
  all: let df := lazymatch goal with
                 | a : DataFrame |- _ => a
                 | _ => constr:({| columns := []; rows := [] |})
                 end in
       let job := lazymatch goal with
                  | a : LoadJob |- _ => a
                  | _ => constr:({| job_ref := 0 |})
                  end in
       first [ by exists df, true, job; eexists
             | by exists df, false, job; eexists ].
Qed.

(** X4. A 200 response is returned only after all five calls of the
    protocol were made and none failed, except that the existence check
    may have answered not-found; the submitted load then truncates, and
    appends otherwise. *)
Theorem success_only_after_complete_load (ev : CloudEvent) (w w' : W) b tr :
  gcs_trigger_process P D T ev w = (Ret (b, 200%Z), w', tr) →
  ∃ df answer job,
    calls tr =
      [(ReadCsv (event_uri ev), None);
       (GetTable (config_ref P D T), answer);
       (LoadTableFromDataframe df (config_ref P D T)
          (load_config (table_existed answer)), None);
       (Result job, None);
       (GetTable (config_ref P D T), None)] ∧
    (answer = None ∨ ∃ e, answer = Some e ∧ is_NotFound e = true).
Proof.
  intros Hrun.
  refine (wp_run _ w
    (λ o _ tr, ∀ b, o = Ret (b, 200%Z) →
       ∃ df answer job,
         calls tr =
           [(ReadCsv (event_uri ev), None);
            (GetTable (config_ref P D T), answer);
            (LoadTableFromDataframe df (config_ref P D T)
               (load_config (table_existed answer)), None);
            (Result job, None);
            (GetTable (config_ref P D T), None)] ∧
         (answer = None ∨ ∃ e, answer = Some e ∧ is_NotFound e = true))
    _ _ _ _ Hrun b eq_refl).
  clear Hrun.
  unfold event_uri, config_ref, event_bucket, event_name, event_data.
  wp_exec.
  all: intros b0 [= <-]; cbn [app calls].
  all: first
         [ by eexists _, None, _; split; [reflexivity|left]
         | eexists _, (Some _), _; split; [reflexivity|right; eauto] ].
Qed.


(** X6. An exception outside [Exception] ([KeyboardInterrupt],
    [SystemExit]) is not caught by [except Exception]: it leaves the
    handler without the error report. *)
Theorem non_exceptions_propagate_unreported
    (ev : CloudEvent) (w w' : W) e tr :
  gcs_trigger_process P D T ev w = (Raise e, w', tr) →
  is_Exception e = false →
  error_banner ∉ tr.
Proof.
  intros Hrun.
  refine (wp_run _ w
    (λ o _ tr, ∀ e, o = Raise e → is_Exception e = false →
       error_banner ∉ tr)
    _ _ _ _ Hrun e eq_refl).
  clear Hrun. wp_exec.
  all: intros ? [= <-] Hbase; try congruence.
  all: cbn [app]; unfold error_banner; intros Hin; not_in_trace Hin.
Qed.

(** X7. Among the notifications that pass validation, the skipped ones
    are exactly those whose object name is not [raw_data/] followed by
    anything and an extension that lower-cases to [.csv]. *)
Theorem skipped_exactly_outside_the_filter (ev : CloudEvent) (w : W) s :
  truthy (event_bucket ev) = true → event_name ev = VStr s → s ≠ "" →
  outcome_of (gcs_trigger_process P D T ev w) = Ret skipped ↔
  ¬ ∃ stem ext, s = "raw_data/" +:+ stem +:+ ext ∧ lower ext = ".csv".
Proof.
  intros Hb Hn Hs. rewrite <- passes_filter_iff. split.
  - intros Hskip [Hpre Hext].
    pose proof (valid_guard ev s Hb Hn Hs) as Hguard.
    unfold event_name, event_data in Hn.
    destruct (wp_total (gcs_trigger_process P D T ev) w
                (λ o _ _, o ≠ Ret skipped))
      as (o & w' & tr & Hrun & Hne).
    { unfold gcs_trigger_process; cbv zeta. rewrite Hn in Hguard |- *.
      by repeat wp_step. }
    rewrite Hrun in Hskip. done.
  - intros Hfail.
    destruct (filtered_out_run P D T ev w s Hb Hn Hs) as (tr & -> & _);
      [|done].
    destruct (startswith s "raw_data/"); [|by left].
    destruct (endswith (lower s) ".csv"); [|by right].
    by destruct Hfail.
Qed.

(** X9. The frame submitted in a load is the one [read_csv] returned for
    [gs://bucket/name] in the initial world, and the job waited for is one
    that a load submission for the configured table returned. *)
Theorem load_gets_the_frame_read (ev : CloudEvent) (w w' : W) o tr :
  gcs_trigger_process P D T ev w = (o, w', tr) →
  (∀ df ref cfg r,
     (LoadTableFromDataframe df ref cfg, r) ∈ calls tr →
     ∃ w1, read_csv (event_uri ev) w = (inr df, w1)) ∧
  (∀ job r,
     (Result job, r) ∈ calls tr →
     ∃ df cfg wa wb,
       load_table_from_dataframe df (config_ref P D T) cfg wa
         = (inr job, wb)).
Proof.
  intros Hrun.
  refine (wp_run _ w
    (λ _ _ tr,
       (∀ df ref cfg r,
          (LoadTableFromDataframe df ref cfg, r) ∈ calls tr →
          ∃ w1, read_csv (event_uri ev) w = (inr df, w1)) ∧
       (∀ job r,
          (Result job, r) ∈ calls tr →
          ∃ df cfg wa wb,
            load_table_from_dataframe df (config_ref P D T) cfg wa
              = (inr job, wb)))
    _ _ _ _ Hrun).
  clear Hrun.
  unfold event_uri, config_ref, event_bucket, event_name, event_data.
  wp_exec.
  all: cbn [app calls]; split; intros; 
    repeat match goal with
           | H : _ ∈ _ :: _ |- _ => apply elem_of_cons in H as [H|H]
           | H : _ ∈ [] |- _ => by apply elem_of_nil in H
           end; simplify_eq; eauto 10.
Qed.

(** X10. The outcome, the final world and the collaborator calls depend
    on the event only through the bucket and the name of its payload: the
    event type, the subject and any other payload field reach the log
    only. *)
Theorem only_bucket_and_name_matter (ev1 ev2 : CloudEvent) (w : W) :
  event_bucket ev1 = event_bucket ev2 →
  event_name ev1 = event_name ev2 →
  outcome_of (gcs_trigger_process P D T ev1 w)
    = outcome_of (gcs_trigger_process P D T ev2 w) ∧
  world_of (gcs_trigger_process P D T ev1 w)
    = world_of (gcs_trigger_process P D T ev2 w) ∧
  calls (trace_of (gcs_trigger_process P D T ev1 w))
    = calls (trace_of (gcs_trigger_process P D T ev2 w)).
Proof.
  intros Hb Hn. unfold event_bucket, event_name, event_data in Hb, Hn.
  destruct (wp_total (gcs_trigger_process P D T ev1) w
    (λ o1 w1 tr1,
       wp (gcs_trigger_process P D T ev2) w
         (λ o2 w2 tr2, o1 = o2 ∧ w1 = w2 ∧ calls tr1 = calls tr2)))
    as (o1 & w1 & tr1 & Hrun1 & Hrel).
  { unfold gcs_trigger_process; cbv zeta. rewrite <- Hb, <- Hn.
    repeat wp_step_again.
    all: cbn [app calls]; done. }
  apply wp_total in Hrel as (o2 & w2 & tr2 & Hrun2 & -> & -> & Hcalls).
  by rewrite Hrun1, Hrun2.
Qed.
End Further.

(** ** Further properties under a complete configuration *)

Section FurtherConfigured.
Context {W : Type} `{!Collaborators W}.
Variables p d t : string.
Hypothesis Hp : p ≠ "".
Hypothesis Hd : d ≠ "".
Hypothesis Ht : t ≠ "".

(** X8. The table lookup after the load is outside the [try] of the
    existence check: when read, check, load and wait have succeeded and
    this last lookup raises, not-found included, the handler raises that
    exception instead of reporting the load, although all five calls were
    made and the load job had finished. *)
Theorem post_load_lookup_failure_is_raised
    (ev : CloudEvent) s (w w1 w2 w3 w4 w5 : W)
    df answer existed job u e :
  truthy (event_bucket ev) = true → event_name ev = VStr s →
  startswith s "raw_data/" = true → endswith (lower s) ".csv" = true →
  read_csv (gs_uri (event_bucket ev) s) w = (inr df, w1) →
  get_table (join_ref p d t) w1 = (answer, w2) →
  check_answer answer = Some existed →
  load_table_from_dataframe df (join_ref p d t) (load_config existed) w2
    = (inr job, w3) →
  result job w3 = (inr u, w4) →
  get_table (join_ref p d t) w4 = (inl e, w5) →
  ∃ tr,
    gcs_trigger_process (Some p) (Some d) (Some t) ev w
      = (Raise e, w5, tr) ∧
    map fst (calls tr)
      = protocol (gs_uri (event_bucket ev) s) (join_ref p d t) df existed
          job ∧
    last (calls tr) = Some (GetTable (join_ref p d t), Some e).
Proof using Hp Hd Ht.
  intros Hb Hn Hpre Hext Hread Hcheck Hans Hload Hwait Hdest.
  pose proof (valid_guard ev s Hb Hn (startswith_nonempty _ _ _ Hpre))
    as Hguard.
  pose proof (config_guard p d t Hp Hd Ht) as Hcfg.
  unfold protocol, event_name, gs_uri, event_bucket, event_data, join_ref
    in *.
  destruct (wp_total
    (gcs_trigger_process (Some p) (Some d) (Some t) ev) w
    (λ o w' tr,
       o = Raise e ∧ w' = w5 ∧
       map fst (calls tr) =
         [ReadCsv ("gs://" +:+
                   py_str (dict_get (or_empty (ce_data ev)) "bucket")
                   +:+ "/" +:+ s);
          GetTable (p +:+ "." +:+ d +:+ "." +:+ t);
          LoadTableFromDataframe df (p +:+ "." +:+ d +:+ "." +:+ t)
            (load_config existed);
          Result job;
          GetTable (p +:+ "." +:+ d +:+ "." +:+ t)] ∧
       last (calls tr) = Some (GetTable (p +:+ "." +:+ d +:+ "." +:+ t),
                               Some e)))
    as (o & w' & tr & Hrun & -> & -> & Hcalls & Hlast); [|by eauto].
  unfold gcs_trigger_process; cbv zeta.
  rewrite Hn in Hguard |- *. cbn [py_str fmt_env].
  destruct answer as [e0|found]; simpl in Hans.
  - destruct (is_NotFound e0) eqn:Hnf; [|done].
    injection Hans as <-. cbv [load_config spec_mode] in Hload.
    by repeat wp_step.
  - injection Hans as <-. cbv [load_config spec_mode] in Hload.
    by repeat wp_step.
Qed.

End FurtherConfigured.

(** * The claims on concrete deliveries *)

Import Fake.

(** The first delivery creates the table, the second one appends to it;
    both report the three rows of the parsed file. *)
Example first_delivery_creates :
  outcome_of first_run =
    Ret (Json (success_body (VStr "raw_data/x.csv") 3 "p.d.t" true "job-0"),
         200%Z) ∧
  world_of first_run = w1.
Proof. split; vm_compute; reflexivity. Qed.

Example second_delivery_appends :
  outcome_of second_run =
    Ret (Json (success_body (VStr "raw_data/x.csv") 3 "p.d.t" false "job-1"),
         200%Z) ∧
  Fake.assoc "p.d.t" (tables (world_of second_run)) = Some 6.
Proof. split; vm_compute; reflexivity. Qed.

(** C1 on the first delivery: the load follows a not-found answer and
    truncates. *)
Lemma write_mode_from_existence_check_witness :
  configured delivery w0 =
    (outcome_of first_run, world_of first_run, trace_of first_run) ∧
  calls (trace_of first_run) =
    [(ReadCsv "gs://landing/raw_data/x.csv", None);
     (GetTable "p.d.t", Some (NotFound "p.d.t"))]
    ++ (LoadTableFromDataframe sample_df "p.d.t" (load_config false), None)
    :: [(Result {| job_ref := 0 |}, None); (GetTable "p.d.t", None)] ∧
  ∃ pre' answer,
    [(ReadCsv "gs://landing/raw_data/x.csv", None);
     (GetTable "p.d.t", Some (NotFound "p.d.t"))]
    = pre' ++ [(GetTable "p.d.t", answer)] ∧
    write_disposition (load_config false) = spec_mode (table_existed answer).
Proof.
  assert (configured delivery w0 =
    (outcome_of first_run, world_of first_run, trace_of first_run))
    as Hrun by (vm_compute; reflexivity).
  assert (calls (trace_of first_run) =
    [(ReadCsv "gs://landing/raw_data/x.csv", None);
     (GetTable "p.d.t", Some (NotFound "p.d.t"))]
    ++ (LoadTableFromDataframe sample_df "p.d.t" (load_config false), None)
    :: [(Result {| job_ref := 0 |}, None); (GetTable "p.d.t", None)])
    as Hcalls by (vm_compute; reflexivity).
  split; [exact Hrun|]. split; [exact Hcalls|].
  exact (write_mode_from_existence_check (Some "p") (Some "d") (Some "t")
           delivery w0 _ _ _ _ _ _ _ _ _ Hrun Hcalls).
Defined.

(** C2 on the first delivery. *)
Lemma success_response_witness :
  ("p" ≠ "" ∧ "d" ≠ "" ∧ "t" ≠ "") ∧
  (truthy (event_bucket delivery) = true ∧
   event_name delivery = VStr "raw_data/x.csv" ∧
   startswith "raw_data/x.csv" "raw_data/" = true ∧
   endswith (lower "raw_data/x.csv") ".csv" = true) ∧
  (read_csv (gs_uri (event_bucket delivery) "raw_data/x.csv") w0
     = (inr sample_df, w0) ∧
   length (rows sample_df) = 3 ∧
   get_table (join_ref "p" "d" "t") w0 = (inl (NotFound "p.d.t"), w0) ∧
   check_answer (inl (NotFound "p.d.t")) = Some false ∧
   load_table_from_dataframe sample_df (join_ref "p" "d" "t")
     (load_config false) w0 = (inr {| job_ref := 0 |}, w1) ∧
   result {| job_ref := 0 |} w1 = (inr tt, w1) ∧
   get_table (join_ref "p" "d" "t") w1 = (inr {| num_rows := 3 |}, w1)) ∧
  ∃ tr body,
    configured delivery w0 = (Ret (Json body, 200%Z), w1, tr) ∧
    body = success_body (VStr "raw_data/x.csv") 3 (join_ref "p" "d" "t")
             (negb false) (job_id {| job_ref := 0 |} w1) ∧
    dom body = {[ "status"; "file"; "rows_loaded"; "bq_table";
                  "table_created_now"; "job_id" ]} ∧
    body !! "rows_loaded" = Some (VInt (Z.of_nat 3)) ∧
    body !! "table_created_now" = Some (VBool (negb false)).
Proof.
  assert ("p" ≠ "") as Hp by discriminate.
  assert ("d" ≠ "") as Hd by discriminate.
  assert ("t" ≠ "") as Ht by discriminate.
  assert (truthy (event_bucket delivery) = true) as H1
    by (vm_compute; reflexivity).
  assert (event_name delivery = VStr "raw_data/x.csv") as H2
    by (vm_compute; reflexivity).
  assert (startswith "raw_data/x.csv" "raw_data/" = true) as H3
    by reflexivity.
  assert (endswith (lower "raw_data/x.csv") ".csv" = true) as H4
    by reflexivity.
  assert (read_csv (gs_uri (event_bucket delivery) "raw_data/x.csv") w0
            = (inr sample_df, w0)) as H5 by (vm_compute; reflexivity).
  assert (length (rows sample_df) = 3) as H6 by reflexivity.
  assert (get_table (join_ref "p" "d" "t") w0
            = (inl (NotFound "p.d.t"), w0)) as H7 by reflexivity.
  assert (check_answer (inl (NotFound "p.d.t")) = Some false) as H8
    by reflexivity.
  assert (load_table_from_dataframe sample_df (join_ref "p" "d" "t")
            (load_config false) w0 = (inr {| job_ref := 0 |}, w1)) as H9
    by reflexivity.
  assert (result {| job_ref := 0 |} w1 = (inr tt, w1)) as H10
    by reflexivity.
  assert (get_table (join_ref "p" "d" "t") w1
            = (inr {| num_rows := 3 |}, w1)) as H11 by reflexivity.
  split; [by repeat split|]. split; [by repeat split|].
  split; [by repeat split|].
  exact (success_response "p" "d" "t" Hp Hd Ht delivery "raw_data/x.csv"
           w0 w0 w0 w1 w1 w1 sample_df 3 _ false _ tt _
           H1 H2 H3 H4 H5 H6 H7 H8 H9 H10 H11).
Defined.

(** C3 on the first delivery. *)
Lemma success_names_configured_table_witness :
  configured delivery w0 =
    (Ret (Json (success_body (VStr "raw_data/x.csv") 3 "p.d.t" true "job-0"),
          200%Z),
     world_of first_run, trace_of first_run) ∧
  ∃ p d t body,
    Some "p" = Some p ∧ Some "d" = Some d ∧ Some "t" = Some t ∧
    Json (success_body (VStr "raw_data/x.csv") 3 "p.d.t" true "job-0")
      = Json body ∧
    body !! "bq_table" = Some (VStr (join_ref p d t)).
Proof.
  assert (configured delivery w0 =
    (Ret (Json (success_body (VStr "raw_data/x.csv") 3 "p.d.t" true "job-0"),
          200%Z),
     world_of first_run, trace_of first_run))
    as Hrun by (vm_compute; reflexivity).
  split; [exact Hrun|].
  exact (success_names_configured_table (Some "p") (Some "d") (Some "t")
           delivery w0 _ _ _ Hrun).
Defined.

(** C4 as stated fails on a notification without a bucket: its object name
    is outside [raw_data/], and the answer is 400, not 204. *)
Lemma skip_precedes_validation_counterexample :
  startswith "other/x.txt" "raw_data/" = false ∧
  outcome_of (configured (notification (VStr "") (VStr "other/x.txt")) w0)
    = Ret bad_payload ∧
  outcome_of (configured (notification (VStr "") (VStr "other/x.txt")) w0)
    ≠ Ret skipped.
Proof.
  split; [reflexivity|].
  assert (outcome_of
            (configured (notification (VStr "") (VStr "other/x.txt")) w0)
          = Ret bad_payload) as Hrun by (vm_compute; reflexivity).
  split; [exact Hrun|]. rewrite Hrun. discriminate.
Qed.

(** C4 (amended) on an object outside [raw_data/]. *)
Lemma filtered_out_skipped_without_calls_witness :
  (truthy (event_bucket (notification (VStr "landing") (VStr "other/x.csv")))
     = true ∧
   event_name (notification (VStr "landing") (VStr "other/x.csv"))
     = VStr "other/x.csv" ∧
   "other/x.csv" ≠ "" ∧
   (startswith "other/x.csv" "raw_data/" = false ∨
    endswith (lower "other/x.csv") ".csv" = false)) ∧
  ∃ tr,
    configured (notification (VStr "landing") (VStr "other/x.csv")) w0
      = (Ret skipped, w0, tr) ∧
    calls tr = [].
Proof.
  assert (truthy (event_bucket
            (notification (VStr "landing") (VStr "other/x.csv"))) = true)
    as H1 by (vm_compute; reflexivity).
  assert (event_name (notification (VStr "landing") (VStr "other/x.csv"))
          = VStr "other/x.csv") as H2 by (vm_compute; reflexivity).
  assert ("other/x.csv" ≠ "") as H3 by discriminate.
  assert (startswith "other/x.csv" "raw_data/" = false ∨
          endswith (lower "other/x.csv") ".csv" = false) as H4
    by (left; reflexivity).
  split; [by repeat split|].
  exact (filtered_out_skipped_without_calls (Some "p") (Some "d") (Some "t")
           _ w0 "other/x.csv" H1 H2 H3 H4).
Defined.

(** C5 on a notification with an empty bucket. *)
Lemma bad_payload_no_downstream_calls_witness :
  (truthy (event_bucket (notification (VStr "") (VStr "raw_data/x.csv")))
     = false ∨
   truthy (event_name (notification (VStr "") (VStr "raw_data/x.csv")))
     = false) ∧
  ∃ tr,
    configured (notification (VStr "") (VStr "raw_data/x.csv")) w0
      = (Ret bad_payload, w0, tr) ∧
    calls tr = [].
Proof.
  assert (truthy (event_bucket
            (notification (VStr "") (VStr "raw_data/x.csv"))) = false ∨
          truthy (event_name
            (notification (VStr "") (VStr "raw_data/x.csv"))) = false)
    as H1 by (left; vm_compute; reflexivity).
  split; [exact H1|].
  exact (bad_payload_no_downstream_calls (Some "p") (Some "d") (Some "t")
           _ w0 H1).
Defined.

(** C6 with the project unset: the delivery gets 500, an object outside
    [raw_data/] still gets 204. *)
Lemma missing_config_checked_after_filter_witness :
  (truthy_env None = false ∨ truthy_env (Some "d") = false ∨
   truthy_env (Some "t") = false) ∧
  (∃ tr,
     gcs_trigger_process None (Some "d") (Some "t") delivery w0
       = (Ret config_error, w0, tr) ∧
     calls tr = []) ∧
  (∃ tr,
     gcs_trigger_process None (Some "d") (Some "t")
       (notification (VStr "landing") (VStr "other/x.csv")) w0
       = (Ret skipped, w0, tr) ∧
     calls tr = []).
Proof.
  assert (truthy_env None = false ∨ truthy_env (Some "d") = false ∨
          truthy_env (Some "t") = false) as H0 by (left; reflexivity).
  split; [exact H0|].
  pose proof (missing_config_checked_after_filter (W := world)
                None (Some "d") (Some "t") H0) as [Hconfig Hskip].
  split.
  - apply (Hconfig delivery w0 "raw_data/x.csv");
      vm_compute; reflexivity.
  - apply (Hskip (notification (VStr "landing") (VStr "other/x.csv")) w0
             "other/x.csv");
      [vm_compute; reflexivity | vm_compute; reflexivity | discriminate
      | left; reflexivity].
Defined.

(** C7: the first delivery goes on to the load after not-found; with the
    warehouse down the handler raises what the check raised. *)
Lemma not_found_is_absence_other_errors_propagate_witness :
  ("p" ≠ "" ∧ "d" ≠ "" ∧ "t" ≠ "") ∧
  (truthy (event_bucket delivery) = true ∧
   event_name delivery = VStr "raw_data/x.csv" ∧
   startswith "raw_data/x.csv" "raw_data/" = true ∧
   endswith (lower "raw_data/x.csv") ".csv" = true) ∧
  (read_csv (gs_uri (event_bucket delivery) "raw_data/x.csv") w0
     = (inr sample_df, w0) ∧
   get_table (join_ref "p" "d" "t") w0 = (inl (NotFound "p.d.t"), w0) ∧
   is_NotFound (NotFound "p.d.t") = true) ∧
  (read_csv (gs_uri (event_bucket delivery) "raw_data/x.csv") w_down
     = (inr sample_df, w_down) ∧
   get_table (join_ref "p" "d" "t") w_down = (inl forbidden, w_down) ∧
   is_NotFound forbidden = false) ∧
  (∃ o w' tr r rest,
     configured delivery w0 = (o, w', tr) ∧
     calls tr =
       (ReadCsv (gs_uri (event_bucket delivery) "raw_data/x.csv"), None)
       :: (GetTable (join_ref "p" "d" "t"), Some (NotFound "p.d.t"))
       :: (LoadTableFromDataframe sample_df (join_ref "p" "d" "t")
             (load_config false), r)
       :: rest) ∧
  (∃ tr,
     configured delivery w_down = (Raise forbidden, w_down, tr) ∧
     calls tr =
       [(ReadCsv (gs_uri (event_bucket delivery) "raw_data/x.csv"), None);
        (GetTable (join_ref "p" "d" "t"), Some forbidden)]).
Proof.
  assert ("p" ≠ "") as Hp by discriminate.
  assert ("d" ≠ "") as Hd by discriminate.
  assert ("t" ≠ "") as Ht by discriminate.
  assert (truthy (event_bucket delivery) = true) as H1
    by (vm_compute; reflexivity).
  assert (event_name delivery = VStr "raw_data/x.csv") as H2
    by (vm_compute; reflexivity).
  assert (startswith "raw_data/x.csv" "raw_data/" = true) as H3
    by reflexivity.
  assert (endswith (lower "raw_data/x.csv") ".csv" = true) as H4
    by reflexivity.
  assert (read_csv (gs_uri (event_bucket delivery) "raw_data/x.csv") w0
            = (inr sample_df, w0)) as H5 by (vm_compute; reflexivity).
  assert (get_table (join_ref "p" "d" "t") w0
            = (inl (NotFound "p.d.t"), w0)) as H6 by reflexivity.
  assert (read_csv (gs_uri (event_bucket delivery) "raw_data/x.csv") w_down
            = (inr sample_df, w_down)) as H7 by (vm_compute; reflexivity).
  assert (get_table (join_ref "p" "d" "t") w_down = (inl forbidden, w_down))
    as H8 by reflexivity.
  split; [by repeat split|]. split; [by repeat split|].
  split; [by repeat split|]. split; [by repeat split|].
  split.
  - exact (proj1 (not_found_is_absence_other_errors_propagate "p" "d" "t"
                    Hp Hd Ht delivery "raw_data/x.csv" w0 w0 w0 sample_df _
                    H1 H2 H3 H4 H5 H6) eq_refl).
  - exact (proj2 (not_found_is_absence_other_errors_propagate "p" "d" "t"
                    Hp Hd Ht delivery "raw_data/x.csv" w_down w_down w_down
                    sample_df _ H1 H2 H3 H4 H7 H8) eq_refl).
Defined.

(** C8 on the delivery of an object that is not in the bucket: the read
    raises, and so does the handler, after the error report. *)
Lemma failures_logged_and_reraised_witness :
  configured (notification (VStr "landing") (VStr "raw_data/gone.csv")) w0 =
    (outcome_of missing_run, world_of missing_run, trace_of missing_run) ∧
  calls (trace_of missing_run) =
    [] ++ (ReadCsv "gs://landing/raw_data/gone.csv",
           Some (OtherException "FileNotFoundError"
                   "gs://landing/raw_data/gone.csv")) :: [] ∧
  is_Exception (OtherException "FileNotFoundError"
                  "gs://landing/raw_data/gone.csv") = true ∧
  outcome_of missing_run =
    Raise (OtherException "FileNotFoundError"
             "gs://landing/raw_data/gone.csv") ∧
  ∃ tr0,
    trace_of missing_run =
      tr0 ++ error_report (OtherException "FileNotFoundError"
                             "gs://landing/raw_data/gone.csv").
Proof.
  assert (configured
            (notification (VStr "landing") (VStr "raw_data/gone.csv")) w0 =
    (outcome_of missing_run, world_of missing_run, trace_of missing_run))
    as Hrun by (vm_compute; reflexivity).
  assert (calls (trace_of missing_run) =
    [] ++ (ReadCsv "gs://landing/raw_data/gone.csv",
           Some (OtherException "FileNotFoundError"
                   "gs://landing/raw_data/gone.csv")) :: [])
    as Hcalls by (vm_compute; reflexivity).
  split; [exact Hrun|]. split; [exact Hcalls|]. split; [reflexivity|].
  destruct (failures_logged_and_reraised (Some "p") (Some "d") (Some "t")
              _ w0 _ _ _ _ _ _ _ Hrun Hcalls)
    as [(uri & ref & Hpre & _) | (_ & Hraise & Hlog)].
  - discriminate Hpre.
  - split; [exact Hraise | exact (Hlog eq_refl)].
Defined.

(** C9 on an event without data. *)
Lemma absent_data_is_bad_payload_witness :
  (ce_data {| ce_type := None; ce_subject := None; ce_data := None |} = None ∨
   ce_data {| ce_type := None; ce_subject := None; ce_data := None |}
     = Some ∅) ∧
  outcome_of
    (configured {| ce_type := None; ce_subject := None; ce_data := None |} w0)
    = Ret bad_payload.
Proof.
  assert (ce_data {| ce_type := None; ce_subject := None; ce_data := None |}
            = None ∨
          ce_data {| ce_type := None; ce_subject := None; ce_data := None |}
            = Some ∅) as H1 by (left; reflexivity).
  split; [exact H1|].
  unfold configured.
  rewrite (proj2 (absent_data_is_bad_payload (Some "p") (Some "d") (Some "t")
                    _ w0 H1)).
  reflexivity.
Defined.

(** C10 on the two names of the claim: [RAW_DATA/x.csv] is skipped,
    [raw_data/x.CSV] is read. *)
Lemma prefix_case_sensitive_extension_not_witness :
  ("p" ≠ "" ∧ "d" ≠ "" ∧ "t" ≠ "") ∧
  (lower "RAW_DATA/" = "raw_data/" ∧ "RAW_DATA/" ≠ "raw_data/" ∧
   lower ".CSV" = ".csv") ∧
  (∃ tr,
     configured (notification (VStr "landing") (VStr "RAW_DATA/x.csv")) w0
       = (Ret skipped, w0, tr) ∧
     calls tr = []) ∧
  (∃ o w' tr r rest,
     configured (notification (VStr "landing") (VStr "raw_data/x.CSV")) w0
       = (o, w', tr) ∧
     calls tr =
       (ReadCsv (gs_uri (VStr "landing") "raw_data/x.CSV"), r) :: rest).
Proof.
  assert ("p" ≠ "") as Hp by discriminate.
  assert ("d" ≠ "") as Hd by discriminate.
  assert ("t" ≠ "") as Ht by discriminate.
  assert (lower "RAW_DATA/" = "raw_data/") as H1 by reflexivity.
  assert ("RAW_DATA/" ≠ "raw_data/") as H2 by discriminate.
  assert (lower ".CSV" = ".csv") as H3 by reflexivity.
  split; [by repeat split|]. split; [by repeat split|].
  pose proof (prefix_case_sensitive_extension_not (W := world)
                "p" "d" "t" Hp Hd Ht) as [Hprefix Hext].
  split.
  - apply (Hprefix (notification (VStr "landing") (VStr "RAW_DATA/x.csv"))
             w0 "RAW_DATA/" "x.csv");
      [vm_compute; reflexivity | vm_compute; reflexivity | exact H1
      | exact H2].
  - apply (Hext (notification (VStr "landing") (VStr "raw_data/x.CSV"))
             w0 "x" ".CSV");
      [vm_compute; reflexivity | vm_compute; reflexivity | exact H3].
Defined.

(** * The further properties on concrete deliveries *)

(** X1 on a notification whose object name is the number 5. *)
Lemma non_string_name_raises_attribute_error_witness :
  (truthy (event_bucket numeric_name) = true ∧
   truthy (event_name numeric_name) = true ∧
   (∀ s, event_name numeric_name ≠ VStr s)) ∧
  ∃ tr,
    configured numeric_name w0
      = (Raise (AttributeError "startswith"), w0, tr) ∧
    calls tr = [] ∧
    ∃ tr0, tr = tr0 ++ error_report (AttributeError "startswith").
Proof.
  assert (truthy (event_bucket numeric_name) = true) as H1
    by (vm_compute; reflexivity).
  assert (truthy (event_name numeric_name) = true) as H2
    by (vm_compute; reflexivity).
  assert (∀ s, event_name numeric_name ≠ VStr s) as H3
    by (intros s; vm_compute; discriminate).
  split; [by repeat split|].
  exact (non_string_name_raises_attribute_error (Some "p") (Some "d")
           (Some "t") numeric_name w0 H1 H2 H3).
Defined.

(** X2 on the first delivery. *)
Lemma responses_are_the_four_kinds_witness :
  configured delivery w0 =
    (Ret (Json (success_body (VStr "raw_data/x.csv") 3 "p.d.t" true "job-0"),
          200%Z),
     world_of first_run, trace_of first_run) ∧
  ((Json (success_body (VStr "raw_data/x.csv") 3 "p.d.t" true "job-0"),
    200%Z) = bad_payload ∨
   (Json (success_body (VStr "raw_data/x.csv") 3 "p.d.t" true "job-0"),
    200%Z) = skipped ∨
   (Json (success_body (VStr "raw_data/x.csv") 3 "p.d.t" true "job-0"),
    200%Z) = config_error ∨
   ∃ body,
     (Json (success_body (VStr "raw_data/x.csv") 3 "p.d.t" true "job-0"),
      200%Z) = (Json body, 200%Z)).
Proof.
  assert (configured delivery w0 =
    (Ret (Json (success_body (VStr "raw_data/x.csv") 3 "p.d.t" true "job-0"),
          200%Z),
     world_of first_run, trace_of first_run))
    as Hrun by (vm_compute; reflexivity).
  split; [exact Hrun|].
  exact (responses_are_the_four_kinds (Some "p") (Some "d") (Some "t")
           delivery w0 _ _ _ Hrun).
Defined.

(** X3 on the delivery while the warehouse is down: two calls, the start
    of the protocol. *)
Lemma calls_follow_the_protocol_witness :
  configured delivery w_down =
    (outcome_of (configured delivery w_down),
     world_of (configured delivery w_down),
     trace_of (configured delivery w_down)) ∧
  map fst (calls (trace_of (configured delivery w_down))) =
    [ReadCsv "gs://landing/raw_data/x.csv"; GetTable "p.d.t"] ∧
  ∃ df existed job rest,
    protocol (event_uri delivery) (config_ref (Some "p") (Some "d") (Some "t"))
      df existed job
    = map fst (calls (trace_of (configured delivery w_down))) ++ rest.
Proof.
  assert (configured delivery w_down =
    (outcome_of (configured delivery w_down),
     world_of (configured delivery w_down),
     trace_of (configured delivery w_down)))
    as Hrun by (vm_compute; reflexivity).
  split; [exact Hrun|]. split; [vm_compute; reflexivity|].
  exact (calls_follow_the_protocol (Some "p") (Some "d") (Some "t")
           delivery w_down _ _ _ Hrun).
Defined.

(** X4 on the first delivery. *)
Lemma success_only_after_complete_load_witness :
  configured delivery w0 =
    (Ret (Json (success_body (VStr "raw_data/x.csv") 3 "p.d.t" true "job-0"),
          200%Z),
     world_of first_run, trace_of first_run) ∧
  ∃ df answer job,
    calls (trace_of first_run) =
      [(ReadCsv (event_uri delivery), None);
       (GetTable (config_ref (Some "p") (Some "d") (Some "t")), answer);
       (LoadTableFromDataframe df
          (config_ref (Some "p") (Some "d") (Some "t"))
          (load_config (table_existed answer)), None);
       (Result job, None);
       (GetTable (config_ref (Some "p") (Some "d") (Some "t")), None)] ∧
    (answer = None ∨ ∃ e, answer = Some e ∧ is_NotFound e = true).
Proof.
  assert (configured delivery w0 =
    (Ret (Json (success_body (VStr "raw_data/x.csv") 3 "p.d.t" true "job-0"),
          200%Z),
     world_of first_run, trace_of first_run))
    as Hrun by (vm_compute; reflexivity).
  split; [exact Hrun|].
  exact (success_only_after_complete_load (Some "p") (Some "d") (Some "t")
           delivery w0 _ _ _ Hrun).
Defined.


(** X6 on the delivery while the warehouse calls are interrupted. *)
Lemma non_exceptions_propagate_unreported_witness :
  configured delivery w_interrupted =
    (Raise interrupt,
     world_of (configured delivery w_interrupted),
     trace_of (configured delivery w_interrupted)) ∧
  is_Exception interrupt = false ∧
  error_banner ∉ trace_of (configured delivery w_interrupted).
Proof.
  assert (configured delivery w_interrupted =
    (Raise interrupt,
     world_of (configured delivery w_interrupted),
     trace_of (configured delivery w_interrupted)))
    as Hrun by (vm_compute; reflexivity).
  assert (is_Exception interrupt = false) as Hbase by reflexivity.
  split; [exact Hrun|]. split; [exact Hbase|].
  exact (non_exceptions_propagate_unreported (Some "p") (Some "d") (Some "t")
           delivery w_interrupted _ _ _ Hrun Hbase).
Defined.

(** X7 on the delivery: it is not skipped, its name has the form. *)
Lemma skipped_exactly_outside_the_filter_witness :
  (truthy (event_bucket delivery) = true ∧
   event_name delivery = VStr "raw_data/x.csv" ∧
   "raw_data/x.csv" ≠ "") ∧
  (outcome_of (configured delivery w0) = Ret skipped ↔
   ¬ ∃ stem ext,
       "raw_data/x.csv" = "raw_data/" +:+ stem +:+ ext ∧
       lower ext = ".csv").
Proof.
  assert (truthy (event_bucket delivery) = true) as H1
    by (vm_compute; reflexivity).
  assert (event_name delivery = VStr "raw_data/x.csv") as H2
    by (vm_compute; reflexivity).
  assert ("raw_data/x.csv" ≠ "") as H3 by discriminate.
  split; [by repeat split|].
  exact (skipped_exactly_outside_the_filter (Some "p") (Some "d") (Some "t")
           delivery w0 "raw_data/x.csv" H1 H2 H3).
Defined.

(** X9 on the first delivery. *)
Lemma load_gets_the_frame_read_witness :
  configured delivery w0 =
    (outcome_of first_run, world_of first_run, trace_of first_run) ∧
  (∀ df ref cfg r,
     (LoadTableFromDataframe df ref cfg, r) ∈ calls (trace_of first_run) →
     ∃ w1, read_csv (event_uri delivery) w0 = (inr df, w1)) ∧
  (∀ job r,
     (Result job, r) ∈ calls (trace_of first_run) →
     ∃ df cfg wa wb,
       load_table_from_dataframe df
         (config_ref (Some "p") (Some "d") (Some "t")) cfg wa
       = (inr job, wb)).
Proof.
  assert (configured delivery w0 =
    (outcome_of first_run, world_of first_run, trace_of first_run))
    as Hrun by (vm_compute; reflexivity).
  split; [exact Hrun|].
  exact (load_gets_the_frame_read (Some "p") (Some "d") (Some "t")
           delivery w0 _ _ _ Hrun).
Defined.

(** X10 on the delivery and the same delivery with other attributes and
    a further payload field. *)
Lemma only_bucket_and_name_matter_witness :
  (event_bucket delivery = event_bucket delivery_with_metadata ∧
   event_name delivery = event_name delivery_with_metadata ∧
   delivery ≠ delivery_with_metadata) ∧
  outcome_of (configured delivery w0)
    = outcome_of (configured delivery_with_metadata w0) ∧
  world_of (configured delivery w0)
    = world_of (configured delivery_with_metadata w0) ∧
  calls (trace_of (configured delivery w0))
    = calls (trace_of (configured delivery_with_metadata w0)).
Proof.
  assert (event_bucket delivery = event_bucket delivery_with_metadata)
    as H1 by (vm_compute; reflexivity).
  assert (event_name delivery = event_name delivery_with_metadata)
    as H2 by (vm_compute; reflexivity).
  assert (delivery ≠ delivery_with_metadata) as H3 by discriminate.
  split; [by repeat split|].
  exact (only_bucket_and_name_matter (Some "p") (Some "d") (Some "t")
           delivery delivery_with_metadata w0 H1 H2).
Defined.

Import Flaky.

(** X8 on the warehouse whose table is dropped after the first lookup. *)
Lemma post_load_lookup_failure_is_raised_witness :
  ("p" ≠ "" ∧ "d" ≠ "" ∧ "t" ≠ "") ∧
  (truthy (event_bucket delivery) = true ∧
   event_name delivery = VStr "raw_data/x.csv" ∧
   startswith "raw_data/x.csv" "raw_data/" = true ∧
   endswith (lower "raw_data/x.csv") ".csv" = true) ∧
  (read_csv (gs_uri (event_bucket delivery) "raw_data/x.csv") 0
     = (inr sample_df, 0) ∧
   get_table (join_ref "p" "d" "t") 0 = (inr {| num_rows := 7 |}, 1) ∧
   check_answer (inr {| num_rows := 7 |}) = Some true ∧
   load_table_from_dataframe sample_df (join_ref "p" "d" "t")
     (load_config true) 1 = (inr {| job_ref := 0 |}, 1) ∧
   result {| job_ref := 0 |} 1 = (inr tt, 1) ∧
   get_table (join_ref "p" "d" "t") 1 = (inl (NotFound "p.d.t"), 2)) ∧
  ∃ tr,
    gcs_trigger_process (Some "p") (Some "d") (Some "t") delivery 0
      = (Raise (NotFound "p.d.t"), 2, tr) ∧
    map fst (calls tr)
      = protocol (gs_uri (event_bucket delivery) "raw_data/x.csv")
          (join_ref "p" "d" "t") sample_df true {| job_ref := 0 |} ∧
    last (calls tr) = Some (GetTable (join_ref "p" "d" "t"),
                            Some (NotFound "p.d.t")).
Proof.
  assert ("p" ≠ "") as Hp by discriminate.
  assert ("d" ≠ "") as Hd by discriminate.
  assert ("t" ≠ "") as Ht by discriminate.
  assert (truthy (event_bucket delivery) = true) as H1
    by (vm_compute; reflexivity).
  assert (event_name delivery = VStr "raw_data/x.csv") as H2
    by (vm_compute; reflexivity).
  assert (startswith "raw_data/x.csv" "raw_data/" = true) as H3
    by reflexivity.
  assert (endswith (lower "raw_data/x.csv") ".csv" = true) as H4
    by reflexivity.
  assert (read_csv (gs_uri (event_bucket delivery) "raw_data/x.csv") 0
            = (inr sample_df, 0)) as H5 by reflexivity.
  assert (get_table (join_ref "p" "d" "t") 0
            = (inr {| num_rows := 7 |}, 1)) as H6 by reflexivity.
  assert (check_answer (inr {| num_rows := 7 |}) = Some true) as H7
    by reflexivity.
  assert (load_table_from_dataframe sample_df (join_ref "p" "d" "t")
            (load_config true) 1 = (inr {| job_ref := 0 |}, 1)) as H8
    by reflexivity.
  assert (result {| job_ref := 0 |} 1 = (inr tt, 1)) as H9 by reflexivity.
  assert (get_table (join_ref "p" "d" "t") 1
            = (inl (NotFound "p.d.t"), 2)) as H10 by reflexivity.
  split; [by repeat split|]. split; [by repeat split|].
  split; [by repeat split|].
  exact (post_load_lookup_failure_is_raised "p" "d" "t" Hp Hd Ht delivery
           "raw_data/x.csv" 0 0 1 1 1 2 sample_df _ true _ tt _
           H1 H2 H3 H4 H5 H6 H7 H8 H9 H10).
Defined.
